(** * hos-app: duty-log aggregation and compliance rendering

    A shallow embedding of the React front end of the ELD / HOS planner:

    - [DaySummarySidebar.calcHours]     (components/DaySummarySidebar.js)
    - [LogCanvas.drawCanvas], [LogCanvas.calcTotalHours],
      [LogCanvas.currentCycleHours], [LogCanvas.handleDownloadPDF]
                                        (components/LogCanvas.js)
    - [ComplianceSummary.render]        (components/ComplianceSummary.js)
    - [MapComponent.tick], [MapComponent.calcHours]
                                        (components/MapComponent.js)

    Modelling conventions.

    - A JavaScript [Date] is its time value: an integer number of
      milliseconds since the epoch ([Z]).  [new Date(a.start)] is the
      identity on time values; subtracting two dates subtracts the time
      values.
    - A JavaScript number that is not a time value is an exact rational
      ([Q], compared with [==]).  Rounding of IEEE-754 doubles is not part
      of the model, and neither is [NaN], except where a table lookup
      yields a non-number (see [JS.get]).
    - Strings are [string]; the duty status of an activity is the string
      the planner sent, whatever it is.
    - A plain object used as a table ([colors], [statusY]) is a
      [gmap string _] for its own properties, looked up through [JS.get],
      which also sees the property names every object inherits. *)

From Stdlib Require Import ZArith QArith Qminmax Qround Lqa Lia Permutation.
From stdpp Require Import gmap strings list.

Local Open Scope Q_scope.

(** ** JavaScript primitives used by the components *)

Module JS.

(** [HourFromTime] and [MinFromTime] of ECMA-262: floor division, and a
    remainder with the sign of the divisor, which is what [Z.div] and
    [Z.modulo] compute. *)
Definition getUTCHours (t : Z) : Z := ((t / 3600000) mod 24)%Z.
Definition getUTCMinutes (t : Z) : Z := ((t / 60000) mod 60)%Z.

(** The outcome of reading [o[k]] on an object literal [o]. *)
Inductive prop (A : Type) : Type :=
| Own (v : A)      (* a property of the literal itself *)
| Inherited        (* a member of Object.prototype: a function or an object *)
| Undefined.       (* no such property *)
Arguments Own {A} v.
Arguments Inherited {A}.
Arguments Undefined {A}.

(** The property names an object literal inherits from Object.prototype. *)
Definition objectPrototypeKeys : list string :=
  [ "constructor"; "hasOwnProperty"; "isPrototypeOf";
    "propertyIsEnumerable"; "toLocaleString"; "toString"; "valueOf";
    "__proto__"; "__defineGetter__"; "__defineSetter__";
    "__lookupGetter__"; "__lookupSetter__" ].

Definition inherited (k : string) : bool :=
  existsb (String.eqb k) objectPrototypeKeys.

Definition get {A : Type} (o : gmap string A) (k : string) : prop A :=
  match o !! k with
  | Some v => Own v
  | None => if inherited k then Inherited else Undefined
  end.

(** [a || b] on table lookups.  A number is falsy when it is 0, a string
    when it is empty; an inherited member is a function or an object,
    hence truthy; [undefined] is falsy. *)
Definition or_num (a b : prop Q) : prop Q :=
  match a with
  | Own v => if Qeq_bool v 0 then b else a
  | Inherited => a
  | Undefined => b
  end.

Definition or_str (a b : prop string) : prop string :=
  match a with
  | Own EmptyString => b
  | Own _ => a
  | Inherited => a
  | Undefined => b
  end.

(** [a * k]: a product with a non-number is [NaN], here [None]. *)
Definition times (a : prop Q) (k : Q) : option Q :=
  match a with
  | Own v => Some (v * k)
  | Inherited | Undefined => None
  end.

(** [x || d] where [x] is a number or undefined: 0 is falsy. *)
Definition num_or (x : option Q) (d : Q) : Q :=
  match x with
  | Some v => if Qeq_bool v 0 then d else v
  | None => d
  end.

(** [x || d] where [x] is a string or undefined: the empty string is falsy. *)
Definition str_or (x : option string) (d : string) : string :=
  match x with
  | Some EmptyString => d
  | Some s => s
  | None => d
  end.

End JS.

(** ** The data the planner returns *)

(** One entry of [day.activities]: [{ status, start, end }].  [start] and
    [end_] are the time values of [new Date(a.start)] and
    [new Date(a.end)]. *)
Record Activity : Type := {
  status : string;
  start : Z;
  end_ : Z
}.

(** One entry of [days]: [{ date, activities, fuel_inserted }]. *)
Record Day : Type := {
  date : string;
  activities : list Activity;
  fuel_inserted : option Q
}.

(** The four duty statuses of the log sheet, as the strings the code uses. *)
Definition canonical : list string := [ "OffDuty"; "Sleeper"; "Driving"; "OnDuty" ].

(** [(e - s) / 3600000]: the length of an activity in hours. *)
Definition durationHours (a : Activity) : Q :=
  inject_Z (end_ a - start a) / 3600000.

(** The sum of a list of numbers, the mathematical reading of "sum over". *)
Fixpoint sumQ (l : list Q) : Q :=
  match l with
  | [] => 0
  | x :: l' => x + sumQ l'
  end.

(** ** components/DaySummarySidebar.js *)

Module DaySummarySidebar.

Definition calcHours (activities : list Activity) (st : string) : Q :=
  fold_left
    (fun sum a =>
       let s := start a in
       let e := end_ a in
       sum + inject_Z (e - s) / 3600000)
    (List.filter (fun a => String.eqb (status a) st) activities)
    0.

End DaySummarySidebar.

(** ** components/LogCanvas.js *)

Module LogCanvas.

(** [const colors = {...}] and [const statusY = {...}]. *)
Definition colors : gmap string string :=
  {[ "OffDuty" := "#66cc66"; "Sleeper" := "#9966ff";
     "Driving" := "#1E90FF"; "OnDuty" := "#FFA500" ]}%string.

Definition statusY : gmap string Q :=
  {[ "OffDuty" := 162; "Sleeper" := 122; "Driving" := 84; "OnDuty" := 46 ]}.

(** The background image: only its natural size is read. *)
Record Image : Type := { naturalWidth : Q; naturalHeight : Q }.

(** One [beginPath / moveTo(xStart, y) / lineTo(xEnd, y) / stroke] group,
    with the [strokeStyle] and [lineWidth] assigned just before it.
    [y = None] is [NaN]. *)
Record Stroke : Type := {
  strokeStyle : JS.prop string;
  lineWidth : Q;
  xStart : Q;
  xEnd : Q;
  y : option Q
}.

Inductive CanvasOp : Type :=
| ClearRect (x y w h : Q)
| DrawImage (img : Image) (x y w h : Q)
| StrokeLine (s : Stroke).

(** [getUTCHours() + getUTCMinutes() / 60] of a date. *)
Definition hourOfDayUTC (t : Z) : Q :=
  inject_Z (JS.getUTCHours t) + inject_Z (JS.getUTCMinutes t) / 60.

(** The body of the [forEach] in [drawCanvas]. *)
Definition drawActivity (width scaleY : Q) (a : Activity) : Stroke :=
  let startHours := hourOfDayUTC (start a) in
  let endHours := hourOfDayUTC (end_ a) in
  let xStart := (startHours / 24) * width in
  let xEnd := (endHours / 24) * width in
  let y := JS.times (JS.or_num (JS.get statusY (status a))
                               (JS.get statusY "OffDuty")) scaleY in
  {| strokeStyle := JS.or_str (JS.get colors (status a)) (JS.Own "#000"%string);
     lineWidth := 5;
     xStart := xStart;
     xEnd := xEnd;
     y := y |}.

(** [drawCanvas(ctx, dayActivities, bgImage)]: the operations issued on
    [ctx], in order. *)
Definition drawCanvas (dayActivities : list Activity) (bgImage : Image)
  : list CanvasOp :=
  let width := 1000 in
  let height := (naturalHeight bgImage / naturalWidth bgImage) * width in
  let scaleY := height / naturalHeight bgImage in
  ClearRect 0 0 width height
    :: DrawImage bgImage 0 0 width height
    :: map (fun a => StrokeLine (drawActivity width scaleY a)) dayActivities.

(** The strokes among a list of canvas operations. *)
Definition strokes (ops : list CanvasOp) : list Stroke :=
  omap (fun op => match op with StrokeLine s => Some s | _ => None end) ops.

Definition calcTotalHours (activities : list Activity) (st : string) : Q :=
  fold_left
    (fun sum a => sum + inject_Z (end_ a - start a) / 3600000)
    (List.filter (fun a => String.eqb (status a) st) activities)
    0.

Definition currentCycleHours (logDays : list Day) : Q :=
  fold_left
    (fun sum d =>
       sum
       + calcTotalHours (activities d) "Driving"
       + calcTotalHours (activities d) "OnDuty")
    logDays
    0.

(** A [<canvas id="log-i" width={1000} height={200}>] and what was drawn
    on it. *)
Record Canvas : Type := {
  canvas_width : Q;
  canvas_height : Q;
  canvas_ops : list CanvasOp
}.

(** The canvases of the document once the effect has run with a loaded
    background: [document.getElementById(`log-${idx}`)]. *)
Definition canvases (logDays : list Day) (bgImage : Image) (idx : nat)
  : option Canvas :=
  (fun d => {| canvas_width := 1000;
               canvas_height := 200;
               canvas_ops := drawCanvas (activities d) bgImage |})
    <$> logDays !! idx.

Record DriverInfo : Type := {
  name : option string;
  company : option string
}.

(** Calls on the jsPDF document. *)
Inductive PdfOp : Type :=
| AddPage
| SetFontSize (n : Q)
| Text (s : string) (x y : Q) (centered : bool)
| AddImage (img : string) (x y w h : Q)
| Line (x1 y1 x2 y2 : Q)
| Save (file : string).

Section PdfExport.

(** Library functions the export goes through. *)
Variable toFixed1 : Q -> string.          (* Number.prototype.toFixed(1) *)
Variable pageWidth : Q.                   (* pdf.internal.pageSize.getWidth() *)
Variable toDataURL : Canvas -> string.    (* html2canvas(canvas).toDataURL("image/png") *)

(** One iteration of the [for] loop for a canvas that was found. *)
Definition exportPage (currentDate : string) (driverInfo : DriverInfo)
    (i : nat) (d : Day) (canvas : Canvas) : list PdfOp :=
  let imgData := toDataURL canvas in
  let pageHeight := (canvas_height canvas / canvas_width canvas) * pageWidth in
  let driveHrs := toFixed1 (calcTotalHours (activities d) "Driving") in
  let onDutyHrs := toFixed1 (calcTotalHours (activities d) "OnDuty") in
  let offDutyHrs := toFixed1 (calcTotalHours (activities d) "OffDuty") in
  (if (0 <? i)%nat then [AddPage] else [])
  ++ [ SetFontSize 14;
       Text "FMCSA DRIVER DAILY LOG SHEET" (pageWidth / 2) 30 true;
       SetFontSize 10;
       Text ("Driver: " +:+ JS.str_or (name driverInfo) "") 20 50 false;
       Text ("Company: " +:+ JS.str_or (company driverInfo) "") 20 65 false;
       Text ("Date: " +:+ date d) 20 80 false;
       AddImage imgData 0 100 pageWidth pageHeight;
       Text ("Driving Hours: " +:+ driveHrs +:+ " hrs") 20 (110 + pageHeight + 10) false;
       Text ("On Duty: " +:+ onDutyHrs +:+ " hrs") 220 (110 + pageHeight + 10) false;
       Text ("Off Duty: " +:+ offDutyHrs +:+ " hrs") 420 (110 + pageHeight + 10) false;
       Line 20 (130 + pageHeight) 220 (130 + pageHeight);
       Text "Driver Signature" 20 (145 + pageHeight) false;
       SetFontSize 8;
       Text ("Generated: " +:+ currentDate) (pageWidth - 160) (145 + pageHeight) false ].

(** [handleDownloadPDF]: [currentDate] is [new Date().toLocaleString()]
    read when the export starts; [getElementById i] is
    [document.getElementById(`log-${i}`)]. *)
Definition handleDownloadPDF (currentDate : string)
    (getElementById : nat -> option Canvas)
    (logDays : list Day) (driverInfo : DriverInfo) : list PdfOp :=
  concat
    (imap (fun i d =>
             match getElementById i with
             | None => []                      (* if (!canvas) continue; *)
             | Some canvas => exportPage currentDate driverInfo i d canvas
             end)
          logDays)
  ++ [ Save "FMCSA_Driver_Log.pdf" ].

End PdfExport.

End LogCanvas.

(** ** components/ComplianceSummary.js *)

Module ComplianceSummary.

(** [planResult.trip_summary]: totals computed by the planner.  A missing
    field is [None]. *)
Record TripSummary : Type := {
  total_drive_hours : option Q;
  total_on_duty_hours : option Q;
  total_off_duty_hours : option Q;
  total_miles : option Q
}.

(** The default [tripSummary = {}]. *)
Definition emptySummary : TripSummary :=
  {| total_drive_hours := None; total_on_duty_hours := None;
     total_off_duty_hours := None; total_miles := None |}.

(** What the component shows.  The three hour figures are printed with
    [toFixed(1)]; [warningItems = None] means the warnings block is not
    rendered. *)
Record View : Type := {
  totalDays : nat;
  totalMiles : Q;
  totalDrive : Q;
  totalOnDuty : Q;
  totalOffDuty : Q;
  barWidthPercent : Q;
  barBackground : string;
  warningItems : option (list string)
}.

Inductive Rendered : Type :=
| Null                       (* return null *)
| TypeError                  (* reading a property of null *)
| Element (v : View).

(** [tripSummary] and [warnings] are [None] when the caller passes
    [null]; [undefined] has already been replaced by the defaults [{}],
    [[]] and [[]]. *)
Definition render (tripSummary : option TripSummary) (days : list Day)
    (warnings : option (list string)) : Rendered :=
  match tripSummary with
  | None => if (length days =? 0)%nat then Null else TypeError
  | Some ts =>
      let totalDrive := JS.num_or (total_drive_hours ts) 0 in
      let totalOnDuty := JS.num_or (total_on_duty_hours ts) 0 in
      let totalOffDuty := JS.num_or (total_off_duty_hours ts) 0 in
      let totalMiles := JS.num_or (total_miles ts) 0 in
      Element
        {| totalDays := length days;
           totalMiles := totalMiles;
           totalDrive := totalDrive;
           totalOnDuty := totalOnDuty;
           totalOffDuty := totalOffDuty;
           barWidthPercent := Qmin ((totalDrive / 70) * 100) 100;
           barBackground :=
             if Qlt_le_dec 70 totalDrive then "#ff3333"
             else if Qlt_le_dec 60 totalDrive then "#ffc107"
             else "#4caf50";
           warningItems :=
             match warnings with
             | Some ws => if (0 <? length ws)%nat then Some ws else None
             | None => None
             end |}
  end.

End ComplianceSummary.

(** ** components/MapComponent.js *)

Module MapComponent.

(** [realTime]: the state of the real-time tracker. *)
Record RealTime : Type := { elapsed : Q; remaining : Q }.

(** [useState({ elapsed: 0, remaining: 70 })]. *)
Definition initial : RealTime := {| elapsed := 0; remaining := 70 |}.

(** The updater the interval timer passes to [setRealTime]. *)
Definition tick (prev : RealTime) : RealTime :=
  {| elapsed := Qmin (elapsed prev + 0.1) 70;
     remaining := Qmax (remaining prev - 0.1) 0 |}.

(** [n] firings of the timer. *)
Definition ticks (n : nat) (s : RealTime) : RealTime := Nat.iter n tick s.

(** An activity drawn on a canvas: [{ status, startHour, endHour }]. *)
Record Activity : Type := {
  status : string;
  startHour : Q;
  endHour : Q
}.

(** The number [calcHours] formats: everything before [.toFixed(1)]. *)
Definition calcHoursValue (activities : list Activity) (st : string) : Q :=
  fold_left
    (fun sum a => sum + Qmax (endHour a - startHour a) 0)
    (List.filter (fun a => String.eqb (status a) st) activities)
    0.

Section Format.
Variable toFixed1 : Q -> string.          (* Number.prototype.toFixed(1) *)

Definition calcHours (activities : list Activity) (st : string) : string :=
  toFixed1 (calcHoursValue activities st).
End Format.

End MapComponent.

(** ** The engine of the specification, read off the components *)

(** [AggregatedTotals] of the specification. *)
Record AggregatedTotals : Type := {
  driveHours : Q;
  onDutyHours : Q;
  offDutyHours : Q;
  sleeperHours : Q
}.

(** [Trip] of the specification; the components receive its [days]. *)
Record Trip : Type := {
  origin : string;
  destination : string;
  days : list Day;
  totalMiles : Q
}.

(** [aggregate(day)]: the per-day totals are the values of
    [calcTotalHours] at the four statuses. *)
Definition aggregate (d : Day) : AggregatedTotals :=
  {| driveHours := LogCanvas.calcTotalHours (activities d) "Driving";
     onDutyHours := LogCanvas.calcTotalHours (activities d) "OnDuty";
     offDutyHours := LogCanvas.calcTotalHours (activities d) "OffDuty";
     sleeperHours := LogCanvas.calcTotalHours (activities d) "Sleeper" |}.

Definition zeroTotals : AggregatedTotals :=
  {| driveHours := 0; onDutyHours := 0; offDutyHours := 0; sleeperHours := 0 |}.

Definition addTotals (a b : AggregatedTotals) : AggregatedTotals :=
  {| driveHours := driveHours a + driveHours b;
     onDutyHours := onDutyHours a + onDutyHours b;
     offDutyHours := offDutyHours a + offDutyHours b;
     sleeperHours := sleeperHours a + sleeperHours b |}.

(** Modelled from the spec: [aggregateTrip] (section 4.2, "sums each field
    across all days").  The front end has no such function: the trip totals
    it shows arrive precomputed from the planner in [trip_summary]; only
    the cycle total [LogCanvas.currentCycleHours] is computed here. *)
Definition aggregateTrip (t : Trip) : AggregatedTotals :=
  fold_left (fun acc d => addTotals acc (aggregate d)) (days t) zeroTotals.

(** The threshold and the message of the 70-hour/8-day rule. *)
Definition cycleLimit : Q := 70.
Definition limitWarning : string := "Exceeds 70-hour/8-day on-duty limit".

(** Modelled from the spec: [evaluate] (section 4.4).  The compliance
    evaluation runs in the planner, which is not among the sources; the
    front end only displays [trip_summary.warnings].  The rule: a warning
    when [driveHours + onDutyHours > 70]. *)
Definition evaluate (tripTotals : AggregatedTotals) (windowDays : nat)
  : list string :=
  if Qlt_le_dec cycleLimit (driveHours tripTotals + onDutyHours tripTotals)
  then [ limitWarning ]
  else [].

(** [GridCell] of the specification. *)
Record GridCell : Type := {
  cell_status : string;
  columnStart : Q;
  columnEnd : Q
}.

(** The projection as the specification words it (section 4.3): one cell,
    or two when the interval crosses midnight on the wall clock. *)
Definition project_interval_spec (a : Activity) : list GridCell :=
  let cs := LogCanvas.hourOfDayUTC (start a) in
  let ce := LogCanvas.hourOfDayUTC (end_ a) in
  if Qlt_le_dec ce cs
  then [ {| cell_status := status a; columnStart := cs; columnEnd := 24 |};
         {| cell_status := status a; columnStart := 0; columnEnd := ce |} ]
  else [ {| cell_status := status a; columnStart := cs; columnEnd := ce |} ].

Definition project_spec (d : Day) : list GridCell :=
  flat_map project_interval_spec (activities d).

(** The projection the canvas code performs: the hours between which
    [drawCanvas] strokes the line of an activity. *)
Definition project_interval (a : Activity) : list GridCell :=
  [ {| cell_status := status a;
       columnStart := LogCanvas.hourOfDayUTC (start a);
       columnEnd := LogCanvas.hourOfDayUTC (end_ a) |} ].

(** How the canvas code draws a cell: at the lane and in the colour of its
    status, between the abscissas of its two hours. *)
Definition drawCell (width scaleY : Q) (c : GridCell) : LogCanvas.Stroke :=
  {| LogCanvas.strokeStyle :=
       JS.or_str (JS.get LogCanvas.colors (cell_status c)) (JS.Own "#000"%string);
     LogCanvas.lineWidth := 5;
     LogCanvas.xStart := (columnStart c / 24) * width;
     LogCanvas.xEnd := (columnEnd c / 24) * width;
     LogCanvas.y :=
       JS.times (JS.or_num (JS.get LogCanvas.statusY (cell_status c))
                           (JS.get LogCanvas.statusY "OffDuty")) scaleY |}.

(** [Page] and [Report] of the specification.  A page carries the strokes
    [drawCanvas] issues for the day and the day's totals. *)
Record Page : Type := {
  page_day : Day;
  grid : list LogCanvas.Stroke;
  totals : AggregatedTotals
}.

Record Report : Type := {
  pages : list Page;
  tripTotals : AggregatedTotals;
  cycleHours : Q;
  warnings : list string
}.

Definition buildPage (bgImage : LogCanvas.Image) (d : Day) : Page :=
  {| page_day := d;
     grid := LogCanvas.strokes (LogCanvas.drawCanvas (activities d) bgImage);
     totals := aggregate d |}.

(** [buildReport(trip)] (section 4.5): what [LogCanvas] computes for a
    trip when it renders, page by page, together with the trip totals and
    warnings of [aggregateTrip] and [evaluate]. *)
Definition buildReport (bgImage : LogCanvas.Image) (t : Trip) : Report :=
  {| pages := map (buildPage bgImage) (days t);
     tripTotals := aggregateTrip t;
     cycleHours := LogCanvas.currentCycleHours (days t);
     warnings := evaluate (aggregateTrip t) (length (days t)) |}.

(** The ["Generated: ..."] line of an exported page, the one place where
    the export writes the clock. *)
Definition isGenerated (op : LogCanvas.PdfOp) : bool :=
  match op with
  | LogCanvas.Text s _ _ _ => String.prefix "Generated: " s
  | _ => false
  end.

Definition withoutGenerated (ops : list LogCanvas.PdfOp) : list LogCanvas.PdfOp :=
  List.filter (fun op => negb (isGenerated op)) ops.

(** The Interval invariant of the data model: [end >= start]. *)
Definition validRange (a : Activity) : Prop := (start a <= end_ a)%Z.

(** A few timestamps of 1 November 2025 (UTC), in milliseconds. *)
Definition nov1 (h m : Z) : Z := (1761955200000 + h * 3600000 + m * 60000)%Z.

(** The example of the specification: [00:00-02:00 Driving],
    [02:00-03:30 OnDuty]. *)
Definition exampleDay : Day :=
  {| date := "2025-11-01";
     activities :=
       [ {| status := "Driving"; start := nov1 0 0; end_ := nov1 2 0 |};
         {| status := "OnDuty"; start := nov1 2 0; end_ := nov1 3 30 |} ];
     fuel_inserted := None |}.

(** Two overlapping Driving intervals, [01:00-03:00] and [02:00-04:00]. *)
Definition overlapDay : Day :=
  {| date := "2025-11-01";
     activities :=
       [ {| status := "Driving"; start := nov1 1 0; end_ := nov1 3 0 |};
         {| status := "Driving"; start := nov1 2 0; end_ := nov1 4 0 |} ];
     fuel_inserted := None |}.

(** A Driving interval that ends two hours before it starts. *)
Definition reversedActivity : Activity :=
  {| status := "Driving"; start := nov1 3 0; end_ := nov1 1 0 |}.

Definition reversedDay : Day :=
  {| date := "2025-11-01"; activities := [ reversedActivity ];
     fuel_inserted := None |}.

(** The same drag on a [MapComponent] canvas: from 03:00 back to 01:00. *)
Definition reversedDrag : MapComponent.Activity :=
  {| MapComponent.status := "Driving";
     MapComponent.startHour := 3;
     MapComponent.endHour := 1 |}.

(** A trip of two days, for the statements about trip totals. *)
Definition exampleTrip : Trip :=
  {| origin := "Los Angeles, CA"; destination := "Dallas, TX";
     days := [ exampleDay; overlapDay ]; totalMiles := 1435 |}.

(** Trip totals at the threshold and just above it. *)
Definition totalsAt70 : AggregatedTotals :=
  {| driveHours := 44; onDutyHours := 26; offDutyHours := 80; sleeperHours := 0 |}.

Definition totalsAt70_1 : AggregatedTotals :=
  {| driveHours := 44; onDutyHours := 26.1; offDutyHours := 80; sleeperHours := 0 |}.

(** The invariant of the real-time tracker: [elapsed <= 70] and
    [remaining >= 0]. *)
Definition trackerInvariant (s : MapComponent.RealTime) : Prop :=
  MapComponent.elapsed s <= 70 /\ 0 <= MapComponent.remaining s.

(** The warnings a rendered [ComplianceSummary] lists. *)
Definition shownWarnings (r : ComplianceSummary.Rendered) : list string :=
  match r with
  | ComplianceSummary.Element v =>
      match ComplianceSummary.warningItems v with
      | Some ws => ws
      | None => []
      end
  | _ => []
  end.

(** [a.status] is one of the four statuses of [canonical]. *)
Definition isCanonical (st : string) : bool :=
  existsb (String.eqb st) canonical.

(** The vertical scale [drawCanvas] computes from the background image. *)
Definition canvasScaleY (bgImage : LogCanvas.Image) : Q :=
  ((LogCanvas.naturalHeight bgImage / LogCanvas.naturalWidth bgImage) * 1000)
  / LogCanvas.naturalHeight bgImage.

(** [project(day)] as the canvas code performs it. *)
Definition project (d : Day) : list GridCell :=
  flat_map project_interval (activities d).

(** An activity does not run backwards on the wall clock: the hour of day
    of its end is not before the hour of day of its start. *)
Definition sameDayOrder (a : Activity) : Prop :=
  LogCanvas.hourOfDayUTC (start a) <= LogCanvas.hourOfDayUTC (end_ a).

(** The interval [23:00-01:00 OnDuty] of the specification: it ends at
    01:00 on 2 November. *)
Definition midnightActivity : Activity :=
  {| status := "OnDuty"; start := nov1 23 0; end_ := nov1 25 0 |}.

Definition midnightDay : Day :=
  {| date := "2025-11-01"; activities := [ midnightActivity ];
     fuel_inserted := None |}.

(** A log-sheet image of 2000 by 400 pixels. *)
Definition sampleImage : LogCanvas.Image :=
  {| LogCanvas.naturalWidth := 2000; LogCanvas.naturalHeight := 400 |}.

(** An activity whose status is none of the four. *)
Definition yardMove : Activity :=
  {| status := "YardMove"; start := nov1 8 0; end_ := nov1 9 0 |}.

(** The same interval as Off Duty. *)
Definition asOffDuty (a : Activity) : Activity :=
  {| status := "OffDuty"; start := start a; end_ := end_ a |}.

(** ** More of components/LogCanvas.js: a click on a sheet *)

Module LogCanvasClick.

(** What running a handler can come to. *)
Inductive outcome (A : Type) : Type :=
| Done (a : A)       (* the handler ran to its end *)
| Throws             (* a TypeError: a property of undefined was read *)
| Unspecified.       (* ECMA-262 leaves the value of a date to the engine *)
Arguments Done {A} a.
Arguments Throws {A}.
Arguments Unspecified {A}.

(** The band of the sheet a click falls in: the [if / else if] chain on
    [y] and [canvas.height]. *)
Definition statusAt (y height : Q) : string :=
  if Qlt_le_dec y (height * 0.25) then "OnDuty"
  else if Qlt_le_dec y (height * 0.5) then "Driving"
  else if Qlt_le_dec y (height * 0.75) then "Sleeper"
  else "OffDuty".

(** [(x / canvas.width) * 24]. *)
Definition hoursAt (x width : Q) : Q := (x / width) * 24.

(** [new Date(`2025-11-01T${h}:00:00Z`)] for an integer [h].  With two
    digits and [h <= 24] the string is in the Date Time String Format and
    denotes [h] hours after midnight of 1 November 2025 (UTC); otherwise
    it is not in that format, and the result is up to the engine. *)
Definition dateAtHour (h : Z) : option Z :=
  if ((10 <=? h) && (h <=? 24))%Z then Some (nov1 h 0) else None.

(** The [newActivity] of a click at [(x, y)]. *)
Definition newActivity (x y width height : Q) : option Activity :=
  let hours := hoursAt x width in
  match dateAtHour (Qfloor hours), dateAtHour (Qfloor (hours + 1)) with
  | Some s, Some e => Some {| status := statusAt y height; start := s; end_ := e |}
  | _, _ => None
  end.

(** [d.activities.push(a)]. *)
Definition pushActivity (a : Activity) (d : Day) : Day :=
  {| date := date d;
     activities := activities d ++ [ a ];
     fuel_inserted := fuel_inserted d |}.

(** [handleCanvasClick(e, dayIndex)] on the state [logDays]: [x] and [y]
    are the click relative to the canvas, [width] and [height] the
    attributes of the canvas.  The updater passed to [setLogDays] is run
    once. *)
Definition handleCanvasClick (x y width height : Q) (dayIndex : nat)
    (logDays : list Day) : outcome (list Day) :=
  match newActivity x y width height with
  | None => Unspecified
  | Some a =>
      match logDays !! dayIndex with
      | None => Throws                       (* updated[dayIndex] is undefined *)
      | Some d => Done (<[dayIndex := pushActivity a d]> logDays)
      end
  end.

End LogCanvasClick.

(** The sum of the four totals of a day. *)
Definition totalHours (t : AggregatedTotals) : Q :=
  driveHours t + onDutyHours t + offDutyHours t + sleeperHours t.

(** A log without gaps from [t0] to [t1]: every activity starts when the
    one before it ends. *)
Fixpoint contiguous (t0 : Z) (acts : list Activity) (t1 : Z) : Prop :=
  match acts with
  | [] => t0 = t1
  | a :: rest => start a = t0 /\ contiguous (end_ a) rest t1
  end.

(** The two halves of an activity cut at the time [m]. *)
Definition cutAt (m : Z) (a : Activity) : list Activity :=
  [ {| status := status a; start := start a; end_ := m |};
    {| status := status a; start := m; end_ := end_ a |} ].

(** The ordinate of the lane of a status on a sheet drawn at scale
    [scaleY], when it is a number. *)
Definition laneOrdinate (scaleY : Q) (st : string) : option Q :=
  LogCanvas.y (LogCanvas.drawActivity 1000 scaleY
                 {| status := st; start := 0; end_ := 0 |}).

(** The images an export places, in order, and the number of page breaks
    it makes.  A jsPDF document starts with one page. *)
Definition exportedImages (ops : list LogCanvas.PdfOp) : list string :=
  omap (fun op => match op with
                  | LogCanvas.AddImage img _ _ _ _ => Some img
                  | _ => None
                  end) ops.

Definition pageBreaks (ops : list LogCanvas.PdfOp) : nat :=
  length (List.filter (fun op => match op with
                                 | LogCanvas.AddPage => true
                                 | _ => false
                                 end) ops).

(** ** The component of components/DaySummarySidebar.js *)

Module DaySummarySidebarView.

(** An activity of the plan with its [type], which the sidebar reads. *)
Record PlanActivity : Type := {
  activity : Activity;
  type_ : option string
}.

Record PlanDay : Type := {
  plan_date : string;
  plan_activities : list PlanActivity
}.

(** One entry of the overview: ["Day {idx + 1}"], the two figures, the
    number of fuel stops, and whether it is highlighted. *)
Record Row : Type := {
  dayNumber : nat;
  drive : string;
  off : string;
  fuelStops : nat;
  active : bool
}.

Definition isFuelStop (a : PlanActivity) : bool :=
  match type_ a with
  | Some t => String.eqb t "fuel_stop"
  | None => false
  end.

Section Rows.

Variable toFixed1 : Q -> string.          (* Number.prototype.toFixed(1) *)

(** The body of [days.map((d, idx) => ...)]; [selectedDayIndex] is [None]
    when it is [null]. *)
Definition row (selectedDayIndex : option nat) (idx : nat) (d : PlanDay) : Row :=
  let acts := map activity (plan_activities d) in
  {| dayNumber := idx + 1;
     drive := toFixed1 (DaySummarySidebar.calcHours acts "Driving");
     off := toFixed1 (DaySummarySidebar.calcHours acts "OffDuty");
     fuelStops := length (List.filter isFuelStop (plan_activities d));
     active := match selectedDayIndex with
               | Some sel => Nat.eqb idx sel
               | None => false
               end |}.

(** The component: [None] is [return null]; [days = None] is a missing
    [days]. *)
Definition render (days : option (list PlanDay)) (selectedDayIndex : option nat)
  : option (list Row) :=
  match days with
  | None => None
  | Some ds =>
      if (length ds =? 0)%nat then None
      else Some (imap (row selectedDayIndex) ds)
  end.

End Rows.

End DaySummarySidebarView.

(** ** More of components/MapComponent.js: routes, drawing and the canvas *)

Module MapWithLogs.

(** [const colors] and [const statusY] of this file, in the order of the
    literals, which is the order of [Object.keys] and [Object.entries]. *)
Definition colorEntries : list (string * string) :=
  [ ("OffDuty", "#66cc66"); ("Sleeper", "#9966ff");
    ("Driving", "#1E90FF"); ("OnDuty", "#FFA500") ]%string.

Definition statusYEntries : list (string * Q) :=
  [ ("OffDuty"%string, 162); ("Sleeper"%string, 122);
    ("Driving"%string, 84); ("OnDuty"%string, 46) ].

Definition colors : gmap string string := list_to_map colorEntries.
Definition statusY : gmap string Q := list_to_map statusYEntries.

(** One entry of [logDays]. *)
Record LogDay : Type := {
  date : string;
  activities : list MapComponent.Activity
}.

(** The part of the component state the drawing handlers read and write. *)
Record State : Type := {
  logDays : list LogDay;
  selectedStatus : string;
  isDrawing : bool
}.

(** The [useState] defaults. *)
Definition initial : State :=
  {| logDays := []; selectedStatus := "Driving"; isDrawing := false |}.

(** [(x / canvas.width) * 24] on a canvas of width 1000. *)
Definition hourAt (x : Q) : Q := (x / 1000) * 24.

(** [setRealTime({ elapsed: cycleHoursUsed, remaining: 70 - cycleHoursUsed })]
    at the end of a successful [generateRoute]. *)
Definition resetRealTime (cycleHoursUsed : Q) : MapComponent.RealTime :=
  {| MapComponent.elapsed := cycleHoursUsed;
     MapComponent.remaining := 70 - cycleHoursUsed |}.

(** The [setLogDays(Array.from({ length: days }).map(...))] of a
    successful [generateRoute]: [tripDays] is [data.trip.days], and
    [dateOf i] the local date string of the clock plus [i] days. *)
Definition freshLogDays (tripDays : nat) (dateOf : nat -> string) : list LogDay :=
  let days := if (tripDays =? 0)%nat then 1%nat else tripDays in   (* days || 1 *)
  map (fun i => {| date := dateOf i; activities := [] |}) (seq 0 days).

Definition pushActivity (a : MapComponent.Activity) (d : LogDay) : LogDay :=
  {| date := date d; activities := activities d ++ [ a ] |}.

Definition setEndHour (hour : Q) (a : MapComponent.Activity) : MapComponent.Activity :=
  {| MapComponent.status := MapComponent.status a;
     MapComponent.startHour := MapComponent.startHour a;
     MapComponent.endHour := hour |}.

(** [handleMouseDown(e, dayIdx)], with [x = e.clientX - rect.left].
    [None]: the handler throws, there being no canvas or no day
    [dayIdx].  Here and below the updater passed to [setLogDays] is run
    once. *)
Definition handleMouseDown (x : Q) (dayIdx : nat) (s : State) : option State :=
  match logDays s !! dayIdx with
  | None => None
  | Some d =>
      let startHour := hourAt x in
      let a := {| MapComponent.status := selectedStatus s;
                  MapComponent.startHour := startHour;
                  MapComponent.endHour := startHour |} in
      Some {| logDays := <[dayIdx := pushActivity a d]> (logDays s);
              selectedStatus := selectedStatus s;
              isDrawing := true |}
  end.

(** [handleMouseMove(e, dayIdx)].  [None]: the handler or its updater
    throws, there being no day [dayIdx] or no activity on it. *)
Definition handleMouseMove (x : Q) (dayIdx : nat) (s : State) : option State :=
  if negb (isDrawing s) then Some s
  else
    match logDays s !! dayIdx with
    | None => None
    | Some d =>
        let hour := hourAt x in
        let n := length (activities d) in
        match activities d !! (n - 1)%nat with
        | None => None
        | Some currentAct =>
            let d' := {| date := date d;
                         activities := <[(n - 1)%nat := setEndHour hour currentAct]>
                                         (activities d) |} in
            Some {| logDays := <[dayIdx := d']> (logDays s);
                    selectedStatus := selectedStatus s;
                    isDrawing := true |}
        end
    end.

(** [handleMouseUp], also bound to [onMouseLeave]. *)
Definition handleMouseUp (s : State) : State :=
  {| logDays := logDays s; selectedStatus := selectedStatus s; isDrawing := false |}.

(** What the user and the planner can do to the state. *)
Inductive Event : Type :=
| SelectStatus (button : nat)     (* the [button]-th of the status buttons *)
| MouseDown (x : Q) (dayIdx : nat)
| MouseMove (x : Q) (dayIdx : nat)
| MouseUp
| RouteLoaded (tripDays : nat) (dateOf : nat -> string).

Definition step (s : State) (e : Event) : option State :=
  match e with
  | SelectStatus button =>
      match map fst colorEntries !! button with     (* Object.keys(colors) *)
      | Some st => Some {| logDays := logDays s; selectedStatus := st;
                           isDrawing := isDrawing s |}
      | None => Some s                                (* there is no such button *)
      end
  | MouseDown x dayIdx => handleMouseDown x dayIdx s
  | MouseMove x dayIdx => handleMouseMove x dayIdx s
  | MouseUp => Some (handleMouseUp s)
  | RouteLoaded tripDays dateOf =>
      Some {| logDays := freshLogDays tripDays dateOf;
              selectedStatus := selectedStatus s;
              isDrawing := isDrawing s |}
  end.

(** A sequence of events, stopping at the first handler that throws. *)
Fixpoint run (s : State) (es : list Event) : option State :=
  match es with
  | [] => Some s
  | e :: es' =>
      match step s e with
      | Some s' => run s' es'
      | None => None
      end
  end.

(** One line of the canvas: [strokeStyle], [lineWidth], and the two ends
    at one ordinate. *)
Record Stroke : Type := {
  strokeStyle : JS.prop string;
  lineWidth : Q;
  xStart : Q;
  xEnd : Q;
  y : JS.prop Q
}.

Inductive CanvasOp : Type :=
| ClearRect (x y w h : Q)
| FillRect (fillStyle : string) (x y w h : Q)
| StrokeLine (s : Stroke).

(** [drawCanvas(ctx, activities)] on a canvas of the given size. *)
Definition drawCanvas (width height : Q) (acts : list MapComponent.Activity)
  : list CanvasOp :=
  ClearRect 0 0 width height
    :: map (fun '(_, y) => FillRect "#ddd" 0 y width 2) statusYEntries
    ++ map (fun a =>
              StrokeLine
                {| strokeStyle := JS.get colors (MapComponent.status a);
                   lineWidth := 6;
                   xStart := (MapComponent.startHour a / 24) * width;
                   xEnd := (MapComponent.endHour a / 24) * width;
                   y := JS.get statusY (MapComponent.status a) |})
           acts.

End MapWithLogs.

(** Every activity of a state carries one of the four statuses, and so
    does the selected status. *)
Definition statusesCanonical (s : MapWithLogs.State) : Prop :=
  isCanonical (MapWithLogs.selectedStatus s) = true
  /\ Forall (fun d => Forall (fun a => isCanonical (MapComponent.status a) = true)
                             (MapWithLogs.activities d))
            (MapWithLogs.logDays s).

(** A press at [x0], moves to [xs] in turn, and a release, all on day
    [dayIdx]. *)
Definition gesture (x0 : Q) (xs : list Q) (dayIdx : nat) : list MapWithLogs.Event :=
  MapWithLogs.MouseDown x0 dayIdx
    :: map (fun x => MapWithLogs.MouseMove x dayIdx) xs
    ++ [ MapWithLogs.MouseUp ].

(** A session on the map component: a route of two days is loaded, the
    fourth status button (On Duty) is chosen, and a line is dragged on
    the second canvas from x = 250 over 300 to 500. *)
Definition exampleSession : list MapWithLogs.Event :=
  MapWithLogs.RouteLoaded 2 (fun _ => "11/1/2025"%string)
    :: MapWithLogs.SelectStatus 3
    :: gesture 250 [ 300; 500 ] 1.

(** * Properties *)

(** Split a conjunction into its conjuncts, leaving equations between
    rationals as they are. *)
Ltac conjuncts :=
  repeat match goal with |- _ /\ _ => split end.

(** ** Sums *)

Lemma fold_left_sumQ {A : Type} (f : A -> Q) (l : list A) (acc : Q) :
  fold_left (fun s a => s + f a) l acc == acc + sumQ (map f l).
Proof.
  revert acc; induction l as [|x l IH]; intros acc; simpl.
  - ring.
  - rewrite IH. ring.
Qed.

Lemma sumQ_app (l1 l2 : list Q) : sumQ (l1 ++ l2) == sumQ l1 + sumQ l2.
Proof.
  induction l1 as [|x l1 IH]; simpl.
  - ring.
  - rewrite IH. ring.
Qed.

(** A sum does not depend on the order of its terms. *)
#[global] Instance sumQ_Permutation : Proper (Permutation ==> Qeq) sumQ.
Proof.
  intros l1 l2 HP.
  induction HP as [|x l1 l2 _ IH|x y l|l1 l2 l3 _ IH1 _ IH2]; simpl.
  - reflexivity.
  - rewrite IH. reflexivity.
  - ring.
  - rewrite IH1. exact IH2.
Qed.

Lemma sumQ_nonneg (l : list Q) : Forall (fun x => 0 <= x) l -> 0 <= sumQ l.
Proof.
  induction 1 as [|x l Hx _ IH]; simpl.
  - apply Qle_refl.
  - lra.
Qed.

(** The boolean test [a.status === st] of the code selects the intervals
    whose status is [st]. *)
Lemma filter_status_eqb (st : string) (acts : list Activity) :
  List.filter (fun a => String.eqb (status a) st) acts
  = filter (fun a => status a = st) acts.
Proof.
  induction acts as [|a acts IH]; [reflexivity|].
  simpl. rewrite filter_cons, IH.
  destruct (String.eqb_spec (status a) st) as [E|E];
    destruct (decide (status a = st)); congruence.
Qed.

Lemma calcTotalHours_sumQ (acts : list Activity) (st : string) :
  LogCanvas.calcTotalHours acts st
  == sumQ (map durationHours (filter (fun a => status a = st) acts)).
Proof.
  unfold LogCanvas.calcTotalHours. rewrite filter_status_eqb.
  etransitivity; [apply (fold_left_sumQ durationHours)|]. ring.
Qed.

Lemma calcTotalHours_app (l1 l2 : list Activity) (st : string) :
  LogCanvas.calcTotalHours (l1 ++ l2) st
  == LogCanvas.calcTotalHours l1 st + LogCanvas.calcTotalHours l2 st.
Proof.
  rewrite !calcTotalHours_sumQ, filter_app, map_app. apply sumQ_app.
Qed.

Lemma calcTotalHours_Permutation (acts acts' : list Activity) (st : string) :
  Permutation acts acts' ->
  LogCanvas.calcTotalHours acts' st == LogCanvas.calcTotalHours acts st.
Proof.
  intros HP. rewrite !calcTotalHours_sumQ.
  apply sumQ_Permutation, Permutation_map. symmetry.
  exact (filter_Permutation _ _ _ HP).
Qed.

(** ** Aggregation *)



(** C5. Overlapping intervals of one status are neither merged nor
    deduplicated: every interval adds its whole duration to the total of
    its status, whatever is already in the list; the two Driving intervals
    [01:00-03:00] and [02:00-04:00] aggregate to 4 drive hours, not 3. *)
Theorem overlap_not_merged :
  (forall (acts : list Activity) (a : Activity),
      LogCanvas.calcTotalHours (acts ++ [a]) (status a)
      == LogCanvas.calcTotalHours acts (status a) + durationHours a)
  /\ driveHours (aggregate overlapDay) == 4
  /\ ~ driveHours (aggregate overlapDay) == 3.
Proof.
  split; [|split].
  - intros acts a. rewrite calcTotalHours_app.
    apply Qplus_comp; [reflexivity|].
    rewrite calcTotalHours_sumQ, filter_cons, decide_True by reflexivity.
    rewrite filter_nil. simpl. ring.
  - reflexivity.
  - discriminate.
Qed.

(** C9. The two aggregators agree: on every activity list and every
    status, [calcHours] of the sidebar and [calcTotalHours] of the log
    canvas return the same number. *)
Theorem calcHours_calcTotalHours_agree (acts : list Activity) (st : string) :
  DaySummarySidebar.calcHours acts st = LogCanvas.calcTotalHours acts st.
Proof.
  unfold DaySummarySidebar.calcHours, LogCanvas.calcTotalHours.
  generalize (List.filter (fun a => String.eqb (status a) st) acts) as matching.
  generalize 0 as sum.
  intros sum matching; revert sum.
  induction matching as [|a l IH]; intros sum; [reflexivity|].
  cbn [fold_left]. apply IH.
Qed.

(** An interval of non-negative length has a non-negative duration. *)
Lemma durationHours_nonneg (a : Activity) : validRange a -> 0 <= durationHours a.
Proof.
  unfold validRange, durationHours. intros H.
  apply Qle_shift_div_l; [reflexivity|].
  rewrite Qmult_0_l. change 0 with (inject_Z 0). rewrite <- Zle_Qle. lia.
Qed.

(** On a day that satisfies the Interval invariant, no total is negative. *)
Lemma calcTotalHours_nonneg (acts : list Activity) (st : string) :
  Forall validRange acts -> 0 <= LogCanvas.calcTotalHours acts st.
Proof.
  intros H. rewrite calcTotalHours_sumQ. apply sumQ_nonneg.
  apply Forall_map. induction H as [|a acts Ha _ IH]; [constructor|].
  rewrite filter_cons. destruct (decide (status a = st)); [|exact IH].
  constructor; [apply durationHours_nonneg, Ha|exact IH].
Qed.

(** The aggregator of [MapComponent] clamps every duration at 0, so its
    totals are never negative, whatever was drawn. *)
Lemma MapComponent_calcHoursValue_nonneg
    (acts : list MapComponent.Activity) (st : string) :
  0 <= MapComponent.calcHoursValue acts st.
Proof.
  unfold MapComponent.calcHoursValue.
  rewrite (fold_left_sumQ
             (fun a => Qmax (MapComponent.endHour a - MapComponent.startHour a) 0)).
  rewrite Qplus_0_l. apply sumQ_nonneg, Forall_map.
  induction (List.filter _ acts) as [|a l IH]; constructor; [|exact IH].
  apply Q.le_max_r.
Qed.

(** C7. The totals of the sidebar and of the log canvas can be negative:
    an interval that ends before it starts contributes its negative
    length, where the aggregator of [MapComponent] clamps it to 0. *)
Theorem calcHours_negative_total :
  DaySummarySidebar.calcHours (activities reversedDay) "Driving" == -2
  /\ driveHours (aggregate reversedDay) < 0
  /\ MapComponent.calcHoursValue [ reversedDrag ] "Driving" == 0.
Proof. conjuncts; reflexivity. Qed.

(** ** Trip totals *)

Lemma aggregateTrip_fold (l : list Day) (acc : AggregatedTotals) :
  let r := fold_left (fun acc d => addTotals acc (aggregate d)) l acc in
  driveHours r == driveHours acc + sumQ (map (fun d => driveHours (aggregate d)) l)
  /\ onDutyHours r == onDutyHours acc + sumQ (map (fun d => onDutyHours (aggregate d)) l)
  /\ offDutyHours r == offDutyHours acc + sumQ (map (fun d => offDutyHours (aggregate d)) l)
  /\ sleeperHours r == sleeperHours acc + sumQ (map (fun d => sleeperHours (aggregate d)) l).
Proof.
  revert acc; induction l as [|d l IH]; intros acc; cbn zeta.
  - cbn [fold_left map sumQ]. conjuncts; ring.
  - destruct (IH (addTotals acc (aggregate d))) as (H1 & H2 & H3 & H4).
    cbn [fold_left map sumQ]. rewrite H1, H2, H3, H4.
    cbn [addTotals driveHours onDutyHours offDutyHours sleeperHours].
    conjuncts; ring.
Qed.

Lemma currentCycleHours_fold (l : list Day) (acc : Q) :
  fold_left
    (fun sum d =>
       sum + LogCanvas.calcTotalHours (activities d) "Driving"
       + LogCanvas.calcTotalHours (activities d) "OnDuty") l acc
  == acc + sumQ (map (fun d => driveHours (aggregate d) + onDutyHours (aggregate d)) l).
Proof.
  revert acc; induction l as [|d l IH]; intros acc; cbn [fold_left map sumQ].
  - ring.
  - rewrite IH. unfold aggregate. cbn [driveHours onDutyHours]. ring.
Qed.


(** The two example days together: 2 + 1.5 + 4 cycle hours, 6 of them
    driving. *)
Example exampleTrip_totals :
  LogCanvas.currentCycleHours (days exampleTrip) == 7.5
  /\ driveHours (aggregateTrip exampleTrip) == 6
  /\ evaluate (aggregateTrip exampleTrip) (length (days exampleTrip)) = [].
Proof. conjuncts; reflexivity. Qed.

(** A day without activities has all-zero totals and an empty grid, and a
    trip without days has an empty report with zero totals and no
    warning. *)
Lemma empty_day_and_trip (dt : string) (bg : LogCanvas.Image)
    (o dst : string) (miles : Q) :
  let d := {| date := dt; activities := []; fuel_inserted := None |} in
  let t := {| origin := o; destination := dst; days := []; totalMiles := miles |} in
  aggregate d = zeroTotals
  /\ LogCanvas.strokes (LogCanvas.drawCanvas (activities d) bg) = []
  /\ project_spec d = []
  /\ evaluate (aggregate d) 1 = []
  /\ pages (buildReport bg t) = []
  /\ tripTotals (buildReport bg t) = zeroTotals
  /\ warnings (buildReport bg t) = [].
Proof. intros d t. conjuncts; reflexivity. Qed.

(** ** The real-time tracker *)

Lemma tick_invariant (s : MapComponent.RealTime) :
  trackerInvariant (MapComponent.tick s).
Proof.
  split; simpl.
  - apply Q.le_min_r.
  - apply Q.le_max_r.
Qed.

(** C10. The tick [elapsed := min(elapsed + 0.1, 70)],
    [remaining := max(remaining - 0.1, 0)] preserves
    [elapsed <= 70 /\ remaining >= 0]: from a state that satisfies it,
    every number of ticks leads to a state that satisfies it. *)
Theorem ticks_preserve_invariant (s : MapComponent.RealTime) (n : nat)
    (Hs : trackerInvariant s) :
  trackerInvariant (MapComponent.ticks n s).
Proof.
  destruct n as [|n]; [exact Hs|].
  unfold MapComponent.ticks. simpl. apply tick_invariant.
Qed.

Lemma ticks_preserve_invariant_witness :
  trackerInvariant MapComponent.initial
  /\ trackerInvariant (MapComponent.ticks 3 MapComponent.initial).
Proof.
  assert (H : trackerInvariant MapComponent.initial).
  { split; simpl; discriminate. }
  split; [exact H|]. apply (ticks_preserve_invariant MapComponent.initial 3 H).
Defined.

(** ** Compliance *)

(** [ComplianceSummary] lists the warnings it is given, all of them and in
    order, and shows no warnings block when there is none. *)
Lemma render_shows_warnings (ts : ComplianceSummary.TripSummary)
    (ds : list Day) (ws : list string) :
  shownWarnings (ComplianceSummary.render (Some ts) ds (Some ws)) = ws.
Proof. destruct ws; reflexivity. Qed.

(** The bar of [ComplianceSummary] turns red exactly above 70 drive hours. *)
Lemma bar_red_iff (ts : ComplianceSummary.TripSummary) (ds : list Day)
    (ws : option (list string)) (v : ComplianceSummary.View) :
  ComplianceSummary.render (Some ts) ds ws = ComplianceSummary.Element v ->
  (ComplianceSummary.barBackground v = "#ff3333"%string
   <-> 70 < ComplianceSummary.totalDrive v).
Proof.
  intros H. injection H as <-. simpl.
  destruct (Qlt_le_dec 70 _) as [Hlt|Hle]; [tauto|].
  split; [|intros Hlt; exfalso; lra].
  destruct (Qlt_le_dec 60 _); discriminate.
Qed.

(** C3. The warning "Exceeds 70-hour/8-day on-duty limit" is emitted if and
    only if [driveHours + onDutyHours] is strictly greater than 70: at
    exactly 70 there is no warning, at 70.1 there is exactly this one; and
    [ComplianceSummary] shows what the evaluation produced. *)
Theorem compliance_threshold (t : AggregatedTotals) (windowDays : nat)
    (ts : ComplianceSummary.TripSummary) (ds : list Day) :
  (evaluate t windowDays = [ limitWarning ]
   <-> 70 < driveHours t + onDutyHours t)
  /\ (evaluate t windowDays = [] <-> driveHours t + onDutyHours t <= 70)
  /\ (driveHours t + onDutyHours t == 70 -> evaluate t windowDays = [])
  /\ (driveHours t + onDutyHours t == 70.1 ->
      evaluate t windowDays = [ "Exceeds 70-hour/8-day on-duty limit"%string ])
  /\ shownWarnings
       (ComplianceSummary.render (Some ts) ds (Some (evaluate t windowDays)))
     = evaluate t windowDays.
Proof.
  unfold evaluate, cycleLimit.
  destruct (Qlt_le_dec 70 (driveHours t + onDutyHours t)) as [Hlt|Hle].
  - split; [split; [intros _; exact Hlt|reflexivity]|].
    split; [split; [discriminate|intros Hle; exfalso; lra]|].
    split; [intros Heq; exfalso; lra|].
    split; [reflexivity|apply render_shows_warnings].
  - split; [split; [discriminate|intros Hlt; exfalso; lra]|].
    split; [split; [intros _; exact Hle|reflexivity]|].
    split; [reflexivity|].
    split; [intros Heq; exfalso; lra|apply render_shows_warnings].
Qed.

Lemma compliance_threshold_witness :
  evaluate totalsAt70 8 = []
  /\ evaluate totalsAt70_1 8 = [ limitWarning ].
Proof.
  split.
  - destruct (compliance_threshold totalsAt70 8 ComplianceSummary.emptySummary [])
      as (_ & _ & H70 & _).
    apply H70. reflexivity.
  - destruct (compliance_threshold totalsAt70_1 8 ComplianceSummary.emptySummary [])
      as (_ & _ & _ & H701 & _).
    apply H701. reflexivity.
Defined.

(** ** The grid projection *)

Lemma strokes_drawCanvas (acts : list Activity) (bg : LogCanvas.Image) :
  LogCanvas.strokes (LogCanvas.drawCanvas acts bg)
  = map (LogCanvas.drawActivity 1000 (canvasScaleY bg)) acts.
Proof.
  unfold LogCanvas.drawCanvas, LogCanvas.strokes. cbn zeta.
  fold (canvasScaleY bg). cbn [omap list_omap].
  induction acts as [|a acts IH]; [reflexivity|].
  cbn [map omap list_omap]. f_equal. exact IH.
Qed.

Lemma project_spec_same_day (a : Activity) :
  sameDayOrder a -> project_interval_spec a = project_interval a.
Proof.
  unfold sameDayOrder, project_interval_spec, project_interval. intros H.
  destruct (Qlt_le_dec _ _) as [Hlt|_]; [|reflexivity].
  exfalso. lra.
Qed.

(** On a whole minute, the hour of day is the minute of the day over 60. *)
Lemma hourOfDayUTC_minutes (n : Z) :
  LogCanvas.hourOfDayUTC (n * 60000) == inject_Z (n mod 1440) / 60.
Proof.
  unfold LogCanvas.hourOfDayUTC, JS.getUTCHours, JS.getUTCMinutes.
  replace (n * 60000 / 3600000)%Z with (n / 60)%Z
    by (change 3600000%Z with (60 * 60000)%Z;
        rewrite Z.div_mul_cancel_r by lia; reflexivity).
  rewrite Z.div_mul by lia.
  assert (H : (n mod 1440 = 60 * ((n / 60) mod 24) + n mod 60)%Z)
    by (Z.div_mod_to_equations; lia).
  rewrite H, inject_Z_plus, inject_Z_mult. field.
Qed.

(** An interval that starts and ends on whole minutes of one UTC day is
    drawn as wide as it is long. *)
Lemma same_day_cell_width (a : Activity) :
  (start a mod 60000 = 0)%Z -> (end_ a mod 60000 = 0)%Z ->
  (start a / 86400000 = end_ a / 86400000)%Z ->
  LogCanvas.hourOfDayUTC (end_ a) - LogCanvas.hourOfDayUTC (start a)
  == durationHours a.
Proof.
  intros Hs He Hday. unfold durationHours.
  assert (Es : (start a = start a / 60000 * 60000)%Z)
    by (Z.div_mod_to_equations; lia).
  assert (Ee : (end_ a = end_ a / 60000 * 60000)%Z)
    by (Z.div_mod_to_equations; lia).
  set (ns := (start a / 60000)%Z) in *. set (ne := (end_ a / 60000)%Z) in *.
  rewrite Es, Ee, !hourOfDayUTC_minutes.
  assert (Hq : ((ne mod 1440) - (ns mod 1440) = ne - ns)%Z).
  { rewrite Es, Ee in Hday. Z.div_mod_to_equations. lia. }
  replace (ne * 60000 - ns * 60000)%Z with ((ne - ns) * 60000)%Z by lia.
  rewrite <- Hq, inject_Z_mult. unfold Z.sub.
  rewrite inject_Z_plus, inject_Z_opp. field.
Qed.




(** ** Statuses outside the four *)

Lemma isCanonical_false (st : string) :
  isCanonical st = false ->
  st <> "OffDuty"%string /\ st <> "Sleeper"%string
  /\ st <> "Driving"%string /\ st <> "OnDuty"%string.
Proof.
  unfold isCanonical, canonical. cbn [existsb]. intros H.
  repeat (apply orb_false_elim in H; destruct H as [?%String.eqb_neq H]).
  tauto.
Qed.

Lemma tables_unknown (st : string) :
  isCanonical st = false ->
  LogCanvas.statusY !! st = None /\ LogCanvas.colors !! st = None.
Proof.
  intros (H1 & H2 & H3 & H4)%isCanonical_false.
  unfold LogCanvas.statusY, LogCanvas.colors.
  split; rewrite !lookup_insert_ne by congruence;
    apply lookup_singleton_ne; congruence.
Qed.

Lemma calcTotalHours_cons_other (a : Activity) (acts : list Activity) (st : string) :
  status a <> st ->
  LogCanvas.calcTotalHours (a :: acts) st = LogCanvas.calcTotalHours acts st.
Proof.
  intros H%String.eqb_neq. unfold LogCanvas.calcTotalHours.
  cbn [List.filter]. rewrite H. reflexivity.
Qed.

(** The four statuses are drawn on their own lanes, in their own colours. *)
Lemma canonical_lanes (w s : Q) (t0 t1 : Z) :
  map (fun st => LogCanvas.y
                   (LogCanvas.drawActivity w s
                      {| status := st; start := t0; end_ := t1 |}))
      canonical
  = [ Some (162 * s); Some (122 * s); Some (84 * s); Some (46 * s) ]
  /\ map (fun st => LogCanvas.strokeStyle
                      (LogCanvas.drawActivity w s
                         {| status := st; start := t0; end_ := t1 |}))
         canonical
     = [ JS.Own "#66cc66"; JS.Own "#9966ff"; JS.Own "#1E90FF"; JS.Own "#FFA500" ]%string.
Proof. split; reflexivity. Qed.

(** A status that names a member every object inherits, such as
    "constructor", finds that member in both tables: the ordinate is not a
    number and the stroke style is not a colour. *)
Lemma inherited_name_lane (w s : Q) (t0 t1 : Z) :
  let a := {| status := "constructor"; start := t0; end_ := t1 |} in
  LogCanvas.y (LogCanvas.drawActivity w s a) = None
  /\ LogCanvas.strokeStyle (LogCanvas.drawActivity w s a) = JS.Inherited.
Proof. split; reflexivity. Qed.

(** C4, as the code has it. There is no validation step in the front end.
    [drawCanvas] draws an interval whose status is none of the four (and
    not the name of a member every object inherits) as if it were Off
    Duty, on the OffDuty lane, in the colour [#000]; and such an interval
    counts towards none of the four totals. *)
Theorem unknown_status_drawn_as_OffDuty (a : Activity) (w s : Q)
    (Hunknown : isCanonical (status a) = false)
    (Hplain : JS.inherited (status a) = false) :
  LogCanvas.y (LogCanvas.drawActivity w s a) = Some (162 * s)
  /\ LogCanvas.y (LogCanvas.drawActivity w s a)
     = LogCanvas.y (LogCanvas.drawActivity w s (asOffDuty a))
  /\ LogCanvas.strokeStyle (LogCanvas.drawActivity w s a) = JS.Own "#000"%string
  /\ (forall (acts : list Activity) (st : string),
         isCanonical st = true ->
         LogCanvas.calcTotalHours (a :: acts) st = LogCanvas.calcTotalHours acts st).
Proof.
  destruct (tables_unknown _ Hunknown) as [HY HC].
  assert (Hy : LogCanvas.y (LogCanvas.drawActivity w s a) = Some (162 * s)).
  { unfold LogCanvas.drawActivity. cbn [LogCanvas.y].
    unfold JS.get at 1. rewrite HY, Hplain. reflexivity. }
  split; [exact Hy|].
  split; [rewrite Hy; reflexivity|].
  split.
  - unfold LogCanvas.drawActivity. cbn [LogCanvas.strokeStyle].
    unfold JS.get. rewrite HC, Hplain. reflexivity.
  - intros acts st Hst. apply calcTotalHours_cons_other.
    intros E. rewrite E, Hst in Hunknown. discriminate.
Qed.

Lemma unknown_status_drawn_as_OffDuty_witness :
  isCanonical (status yardMove) = false
  /\ JS.inherited (status yardMove) = false
  /\ LogCanvas.y (LogCanvas.drawActivity 1000 (1 / 2) yardMove) = Some (162 * (1 / 2)).
Proof.
  split; [reflexivity|]. split; [reflexivity|].
  apply (unknown_status_drawn_as_OffDuty yardMove 1000 (1 / 2));
    reflexivity.
Defined.

(** C4, counterexample: nothing rejects an interval with the status
    "YardMove", which is none of the four, and [drawCanvas] maps it to the
    lane of Off Duty. *)
Lemma yardMove_mapped_to_OffDuty_lane :
  ~ In (status yardMove) canonical
  /\ LogCanvas.strokes (LogCanvas.drawCanvas [ yardMove ] sampleImage)
     = [ LogCanvas.drawActivity 1000 (canvasScaleY sampleImage) yardMove ]
  /\ LogCanvas.y (LogCanvas.drawActivity 1000 (canvasScaleY sampleImage) yardMove)
     = LogCanvas.y
         (LogCanvas.drawActivity 1000 (canvasScaleY sampleImage) (asOffDuty yardMove))
  /\ LogCanvas.y (LogCanvas.drawActivity 1000 (canvasScaleY sampleImage) yardMove)
     = Some (162 * canvasScaleY sampleImage).
Proof.
  split.
  - cbn. intros [H|[H|[H|[H|[]]]]]; discriminate H.
  - split; [apply strokes_drawCanvas|]. split; reflexivity.
Qed.

(** ** The report and its export *)

Lemma withoutGenerated_app (l1 l2 : list LogCanvas.PdfOp) :
  withoutGenerated (l1 ++ l2) = withoutGenerated l1 ++ withoutGenerated l2.
Proof. apply List.filter_app. Qed.

Lemma withoutGenerated_concat_imap (l : list Day)
    (f g : nat -> Day -> list LogCanvas.PdfOp) :
  (forall i d, withoutGenerated (f i d) = withoutGenerated (g i d)) ->
  withoutGenerated (concat (imap f l)) = withoutGenerated (concat (imap g l)).
Proof.
  revert f g; induction l as [|d l IH]; intros f g Hfg; [reflexivity|].
  cbn [imap concat]. rewrite !withoutGenerated_app, Hfg.
  f_equal. apply IH. intros i d'. apply Hfg.
Qed.

(** The clock reaches one line of an exported page, and only that line. *)
Lemma exportPage_clock (toFixed1 : Q -> string) (pageWidth : Q)
    (toDataURL : LogCanvas.Canvas -> string) (info : LogCanvas.DriverInfo)
    (i : nat) (d : Day) (c : LogCanvas.Canvas) (now1 now2 : string) :
  withoutGenerated (LogCanvas.exportPage toFixed1 pageWidth toDataURL now1 info i d c)
  = withoutGenerated (LogCanvas.exportPage toFixed1 pageWidth toDataURL now2 info i d c).
Proof.
  unfold LogCanvas.exportPage. cbn zeta.
  rewrite !withoutGenerated_app. apply f_equal.
  destruct now1, now2; reflexivity.
Qed.

(** The exported document does carry the time of the export. *)
Lemma exportPage_carries_clock (toFixed1 : Q -> string) (pageWidth : Q)
    (toDataURL : LogCanvas.Canvas -> string) (info : LogCanvas.DriverInfo)
    (i : nat) (d : Day) (c : LogCanvas.Canvas) (now : string) :
  exists x y,
    In (LogCanvas.Text ("Generated: " +:+ now) x y false)
       (LogCanvas.exportPage toFixed1 pageWidth toDataURL now info i d c).
Proof.
  eexists _, _. unfold LogCanvas.exportPage. cbn zeta.
  apply in_or_app. right. cbn [In]. do 13 right. left. reflexivity.
Qed.

Lemma lookup_map {A B : Type} (f : A -> B) (l : list A) (i : nat) :
  map f l !! i = f <$> l !! i.
Proof.
  revert i; induction l as [|x l IH]; intros [|i]; try reflexivity.
  apply IH.
Qed.


(** * Further properties of the components *)

(** Decide the comparisons of two string literals in the goal. *)
Ltac eqb_literals :=
  repeat match goal with
         | |- context [String.eqb ?x ?y] =>
             let b := eval vm_compute in (String.eqb x y) in
             match b with
             | true => change (String.eqb x y) with true
             | false => change (String.eqb x y) with false
             end
         end.

(** ** The hour of day and the strokes of a sheet *)

Lemma hourOfDayUTC_range (t : Z) :
  0 <= LogCanvas.hourOfDayUTC t /\ LogCanvas.hourOfDayUTC t < 24.
Proof.
  unfold LogCanvas.hourOfDayUTC, JS.getUTCHours, JS.getUTCMinutes.
  assert (Hh := Z.mod_pos_bound (t / 3600000) 24 eq_refl).
  assert (Hm := Z.mod_pos_bound (t / 60000) 60 eq_refl).
  set (h := ((t / 3600000) mod 24)%Z) in *.
  set (m := ((t / 60000) mod 60)%Z) in *.
  assert (H0h : inject_Z 0 <= inject_Z h) by (rewrite <- Zle_Qle; lia).
  assert (Hh23 : inject_Z h <= inject_Z 23) by (rewrite <- Zle_Qle; lia).
  assert (H0m : inject_Z 0 <= inject_Z m) by (rewrite <- Zle_Qle; lia).
  assert (Hm59 : inject_Z m <= inject_Z 59) by (rewrite <- Zle_Qle; lia).
  change (inject_Z 0) with 0 in *. change (inject_Z 23) with 23 in *.
  change (inject_Z 59) with 59 in *.
  assert (E : inject_Z m / 60 == inject_Z m * (1 # 60)) by field.
  rewrite E. split; lra.
Qed.

(** X1. Every line [drawCanvas] strokes stays within the width of the
    sheet: both of its abscissas are at least 0 and less than 1000,
    whatever the timestamps of the activity. *)
Theorem drawCanvas_strokes_within_sheet (acts : list Activity) (bg : LogCanvas.Image) :
  Forall (fun s => (0 <= LogCanvas.xStart s /\ LogCanvas.xStart s < 1000)
                   /\ (0 <= LogCanvas.xEnd s /\ LogCanvas.xEnd s < 1000))
         (LogCanvas.strokes (LogCanvas.drawCanvas acts bg)).
Proof.
  rewrite strokes_drawCanvas. apply Forall_map, Forall_forall. intros a _.
  unfold LogCanvas.drawActivity. cbn [LogCanvas.xStart LogCanvas.xEnd].
  destruct (hourOfDayUTC_range (start a)) as [Hs0 Hs1].
  destruct (hourOfDayUTC_range (end_ a)) as [He0 He1].
  assert (Es : LogCanvas.hourOfDayUTC (start a) / 24
               == LogCanvas.hourOfDayUTC (start a) * (1 # 24)) by field.
  assert (Ee : LogCanvas.hourOfDayUTC (end_ a) / 24
               == LogCanvas.hourOfDayUTC (end_ a) * (1 # 24)) by field.
  rewrite Es, Ee. conjuncts; lra.
Qed.

(** X2. The hour of day [drawCanvas] uses forgets the date and the
    seconds: shifting a timestamp by whole days, or truncating it to the
    minute, leaves its hour of day unchanged. *)
Theorem hourOfDayUTC_wall_clock (t k : Z) :
  LogCanvas.hourOfDayUTC (t + k * 86400000) = LogCanvas.hourOfDayUTC t
  /\ LogCanvas.hourOfDayUTC (t - t mod 60000) = LogCanvas.hourOfDayUTC t.
Proof.
  unfold LogCanvas.hourOfDayUTC, JS.getUTCHours, JS.getUTCMinutes.
  split.
  - replace ((t + k * 86400000) / 3600000)%Z with (t / 3600000 + k * 24)%Z
      by (Z.div_mod_to_equations; lia).
    replace ((t + k * 86400000) / 60000)%Z with (t / 60000 + (k * 24) * 60)%Z
      by (Z.div_mod_to_equations; lia).
    rewrite !Z_mod_plus_full. reflexivity.
  - replace ((t - t mod 60000) / 3600000)%Z with (t / 3600000)%Z
      by (Z.div_mod_to_equations; lia).
    replace ((t - t mod 60000) / 60000)%Z with (t / 60000)%Z
      by (Z.div_mod_to_equations; lia).
    reflexivity.
Qed.



(** ** More on aggregation *)

Lemma calcTotalHours_cons (a : Activity) (acts : list Activity) (st : string) :
  LogCanvas.calcTotalHours (a :: acts) st
  == (if String.eqb (status a) st then durationHours a else 0)
     + LogCanvas.calcTotalHours acts st.
Proof.
  change (a :: acts) with ([a] ++ acts). rewrite calcTotalHours_app.
  apply Qplus_comp; [|reflexivity].
  unfold LogCanvas.calcTotalHours. cbn [List.filter].
  destruct (String.eqb (status a) st); cbn [fold_left]; [|reflexivity].
  unfold durationHours. ring.
Qed.


Lemma totalHours_canonical (acts : list Activity) (dt : string) (f : option Q) :
  Forall (fun a => isCanonical (status a) = true) acts ->
  totalHours (aggregate {| date := dt; activities := acts; fuel_inserted := f |})
  == sumQ (map durationHours acts).
Proof.
  unfold totalHours, aggregate. cbn [activities driveHours onDutyHours
    offDutyHours sleeperHours].
  induction 1 as [|a acts Ha _ IH]; [reflexivity|].
  rewrite !calcTotalHours_cons. cbn [map sumQ]. rewrite <- IH.
  unfold isCanonical, canonical in Ha. cbn [existsb] in Ha.
  generalize (durationHours a) as dur; intros dur.
  destruct a as [s ts te]. cbn [status] in *.
  destruct (String.eqb_spec s "OffDuty") as [->|_]; [eqb_literals; cbv iota; ring|].
  destruct (String.eqb_spec s "Sleeper") as [->|_]; [eqb_literals; cbv iota; ring|].
  destruct (String.eqb_spec s "Driving") as [->|_]; [eqb_literals; cbv iota; ring|].
  destruct (String.eqb_spec s "OnDuty") as [->|_]; [eqb_literals; cbv iota; ring|].
  discriminate Ha.
Qed.

Lemma contiguous_span (acts : list Activity) (t0 t1 : Z) :
  contiguous t0 acts t1 ->
  sumQ (map durationHours acts) == inject_Z (t1 - t0) / 3600000.
Proof.
  revert t0; induction acts as [|a acts IH]; intros t0; cbn [contiguous map sumQ].
  - intros <-. rewrite Z.sub_diag. reflexivity.
  - intros [<- Hrest]. rewrite (IH _ Hrest). unfold durationHours.
    replace (t1 - start a)%Z with ((end_ a - start a) + (t1 - end_ a))%Z by lia.
    rewrite inject_Z_plus. field.
Qed.



(** ** A click on a sheet of the log canvas *)

Lemma statusAt_canonical (y height : Q) :
  isCanonical (LogCanvasClick.statusAt y height) = true.
Proof.
  unfold LogCanvasClick.statusAt.
  repeat destruct (Qlt_le_dec _ _); reflexivity.
Qed.

Lemma Qfloor_succ (q : Q) : Qfloor (q + 1) = (Qfloor q + 1)%Z.
Proof.
  assert (Hle := Qfloor_le q). assert (Hlt := Qlt_floor q).
  assert (Hle' := Qfloor_le (q + 1)). assert (Hlt' := Qlt_floor (q + 1)).
  rewrite inject_Z_plus in Hlt, Hlt'. change (inject_Z 1) with 1 in Hlt, Hlt'.
  assert (H1 : inject_Z (Qfloor (q + 1)) < inject_Z (Qfloor q + 1 + 1))
    by (rewrite !inject_Z_plus; change (inject_Z 1) with 1; lra).
  assert (H2 : inject_Z (Qfloor q + 1) < inject_Z (Qfloor (q + 1) + 1))
    by (rewrite !inject_Z_plus; change (inject_Z 1) with 1; lra).
  rewrite <- Zlt_Qlt in H1, H2. lia.
Qed.

Lemma hourOfDayUTC_nov1 (h : Z) :
  LogCanvas.hourOfDayUTC (nov1 h 0) == inject_Z (h mod 24).
Proof.
  unfold LogCanvas.hourOfDayUTC, JS.getUTCHours, JS.getUTCMinutes, nov1.
  replace ((1761955200000 + h * 3600000 + 0 * 60000) / 3600000)%Z
    with (h + 20393 * 24)%Z by (Z.div_mod_to_equations; lia).
  replace ((1761955200000 + h * 3600000 + 0 * 60000) / 60000)%Z
    with (0 + (h + 20393 * 24) * 60)%Z by (Z.div_mod_to_equations; lia).
  rewrite !Z_mod_plus_full. change (0 mod 60)%Z with 0%Z.
  change (inject_Z 0) with 0. field.
Qed.

(** The activity of a click, when its two dates are in the format. *)
Lemma newActivity_Some (x y width height : Q) (a : Activity) :
  LogCanvasClick.newActivity x y width height = Some a ->
  let h := Qfloor (LogCanvasClick.hoursAt x width) in
  (10 <= h <= 23)%Z
  /\ a = {| status := LogCanvasClick.statusAt y height;
            start := nov1 h 0; end_ := nov1 (h + 1) 0 |}.
Proof.
  unfold LogCanvasClick.newActivity, LogCanvasClick.dateAtHour. cbn zeta.
  rewrite Qfloor_succ.
  set (h := Qfloor (LogCanvasClick.hoursAt x width)).
  destruct ((10 <=? h)%Z && (h <=? 24)%Z) eqn:E1; [|discriminate].
  destruct ((10 <=? h + 1)%Z && (h + 1 <=? 24)%Z) eqn:E2; [|discriminate].
  intros [= <-]. split; [lia|reflexivity].
Qed.

Lemma durationHours_one_hour (st : string) (h : Z) :
  durationHours {| status := st; start := nov1 h 0; end_ := nov1 (h + 1) 0 |} == 1.
Proof.
  unfold durationHours, nov1. cbn [start end_].
  replace (1761955200000 + (h + 1) * 3600000 + 0 * 60000
           - (1761955200000 + h * 3600000 + 0 * 60000))%Z
    with 3600000%Z by lia.
  reflexivity.
Qed.

Lemma sumQ_map_insert {A : Type} (f : A -> Q) (l : list A) (i : nat) (x x' : A) :
  l !! i = Some x ->
  sumQ (map f (<[i := x']> l)) == sumQ (map f l) + f x' - f x.
Proof.
  revert i; induction l as [|z l IH]; intros [|i]; cbn; try discriminate.
  - intros [= ->]. ring.
  - intros H. rewrite (IH i H). ring.
Qed.



Lemma handleCanvasClick_Done (x y width height : Q) (i : nat)
    (logDays logDays' : list Day) :
  LogCanvasClick.handleCanvasClick x y width height i logDays
    = LogCanvasClick.Done logDays' ->
  exists (d : Day) (a : Activity),
    LogCanvasClick.newActivity x y width height = Some a
    /\ logDays !! i = Some d
    /\ logDays' = <[i := LogCanvasClick.pushActivity a d]> logDays.
Proof.
  unfold LogCanvasClick.handleCanvasClick.
  destruct (LogCanvasClick.newActivity x y width height) as [a|]; [|discriminate].
  destruct (logDays !! i) as [d|]; [|discriminate].
  intros [= <-]. exists d, a. auto.
Qed.

(** X7. A click that completes adds exactly one activity, to the clicked
    day and at its end: it lasts one hour, carries the status of the band
    that was clicked, which is one of the four, and raises the total of
    that status on that day by exactly 1; the other totals, the other
    days and the number of days are unchanged. *)
Theorem click_adds_one_hour (x y width height : Q) (i : nat)
    (logDays logDays' : list Day)
    (Hclick : LogCanvasClick.handleCanvasClick x y width height i logDays
              = LogCanvasClick.Done logDays') :
  exists (d d' : Day) (a : Activity),
    logDays !! i = Some d /\ logDays' !! i = Some d'
    /\ activities d' = activities d ++ [ a ]
    /\ date d' = date d
    /\ status a = LogCanvasClick.statusAt y height
    /\ isCanonical (status a) = true
    /\ durationHours a == 1
    /\ length logDays' = length logDays
    /\ (forall j : nat, j <> i -> logDays' !! j = logDays !! j)
    /\ (forall st : string,
          LogCanvas.calcTotalHours (activities d') st
          == LogCanvas.calcTotalHours (activities d) st
             + (if String.eqb (LogCanvasClick.statusAt y height) st then 1 else 0)).
Proof.
  destruct (handleCanvasClick_Done _ _ _ _ _ _ _ Hclick) as (d & a & Ha & Hd & ->).
  destruct (newActivity_Some _ _ _ _ _ Ha) as [Hh Ea].
  assert (Hdur : durationHours a == 1)
    by (rewrite Ea; apply durationHours_one_hour).
  assert (Hst : status a = LogCanvasClick.statusAt y height)
    by (rewrite Ea; reflexivity).
  exists d, (LogCanvasClick.pushActivity a d), a.
  split; [exact Hd|].
  split; [apply list_lookup_insert_eq, lookup_lt_is_Some; eauto|].
  split; [reflexivity|]. split; [reflexivity|].
  split; [exact Hst|].
  split; [rewrite Hst; apply statusAt_canonical|].
  split; [exact Hdur|].
  split; [apply length_insert|].
  split; [intros j Hj; apply list_lookup_insert_ne; congruence|].
  intros st. cbn [LogCanvasClick.pushActivity activities].
  rewrite calcTotalHours_app, calcTotalHours_cons, Hst.
  change (LogCanvas.calcTotalHours [] st) with 0.
  destruct (String.eqb (LogCanvasClick.statusAt y height) st); rewrite ?Hdur; ring.
Qed.

Lemma click_adds_one_hour_witness :
  exists logDays' : list Day,
    LogCanvasClick.handleCanvasClick 500 10 1000 200 0 [ exampleDay ]
      = LogCanvasClick.Done logDays'
    /\ length logDays' = 1%nat.
Proof.
  eexists. split; [reflexivity|].
  destruct (click_adds_one_hour 500 10 1000 200 0 [ exampleDay ] _ eq_refl)
    as (d & d' & a & _ & _ & _ & _ & _ & _ & _ & Hlen & _).
  exact Hlen.
Defined.





(** ** The exported document *)

Lemma exportedImages_app (l1 l2 : list LogCanvas.PdfOp) :
  exportedImages (l1 ++ l2) = exportedImages l1 ++ exportedImages l2.
Proof. apply omap_app. Qed.

Lemma pageBreaks_app (l1 l2 : list LogCanvas.PdfOp) :
  pageBreaks (l1 ++ l2) = (pageBreaks l1 + pageBreaks l2)%nat.
Proof. unfold pageBreaks. rewrite List.filter_app. apply length_app. Qed.

Lemma exportPage_images (toFixed1 : Q -> string) (pageWidth : Q)
    (toDataURL : LogCanvas.Canvas -> string) (now : string)
    (info : LogCanvas.DriverInfo) (i : nat) (d : Day) (c : LogCanvas.Canvas) :
  exportedImages (LogCanvas.exportPage toFixed1 pageWidth toDataURL now info i d c)
  = [ toDataURL c ]
  /\ pageBreaks (LogCanvas.exportPage toFixed1 pageWidth toDataURL now info i d c)
     = (if (0 <? i)%nat then 1 else 0)%nat.
Proof.
  unfold LogCanvas.exportPage. cbn zeta.
  rewrite exportedImages_app, pageBreaks_app.
  destruct (0 <? i)%nat; split; reflexivity.
Qed.

Lemma export_pages_from (toFixed1 : Q -> string) (pageWidth : Q)
    (toDataURL : LogCanvas.Canvas -> string) (now : string)
    (getElementById : nat -> option LogCanvas.Canvas)
    (info : LogCanvas.DriverInfo) (l : list Day) (k : nat) :
  let pages :=
    concat (imap (fun i d =>
                    match getElementById (k + i)%nat with
                    | None => []
                    | Some c =>
                        LogCanvas.exportPage toFixed1 pageWidth toDataURL now info
                          (k + i)%nat d c
                    end) l) in
  exportedImages pages
  = omap (fun i => toDataURL <$> getElementById i) (seq k (length l))
  /\ pageBreaks pages
     = length (omap (fun i => if (0 <? i)%nat then getElementById i else None)
                    (seq k (length l))).
Proof.
  revert k; induction l as [|d l IH]; intros k; [split; reflexivity|].
  cbn zeta. cbn [imap concat length seq omap list_omap].
  rewrite exportedImages_app, pageBreaks_app.
  rewrite (imap_ext _ (fun i d =>
             match getElementById (S k + i)%nat with
             | None => []
             | Some c =>
                 LogCanvas.exportPage toFixed1 pageWidth toDataURL now info
                   (S k + i)%nat d c
             end))
    by (intros i x _; cbn; replace (k + S i)%nat with (S (k + i)) by lia;
        reflexivity).
  destruct (IH (S k)) as [IH1 IH2]. cbn zeta in IH1, IH2. rewrite IH1, IH2.
  replace (k + 0)%nat with k by lia.
  destruct (getElementById k) as [c|]; cbn [fmap option_fmap option_map].
  - destruct (exportPage_images toFixed1 pageWidth toDataURL now info k d c)
      as [-> ->].
    destruct (0 <? k)%nat; split; reflexivity.
  - destruct (0 <? k)%nat; split; reflexivity.
Qed.

(** X10. The export places one image per day whose canvas is found, in
    the order of the days, each the picture of that day's canvas; a day
    whose canvas is missing is skipped without a page. *)
Theorem export_images_in_day_order (toFixed1 : Q -> string) (pageWidth : Q)
    (toDataURL : LogCanvas.Canvas -> string) (now : string)
    (getElementById : nat -> option LogCanvas.Canvas)
    (logDays : list Day) (info : LogCanvas.DriverInfo) :
  exportedImages
    (LogCanvas.handleDownloadPDF toFixed1 pageWidth toDataURL now
       getElementById logDays info)
  = omap (fun i => toDataURL <$> getElementById i) (seq 0 (length logDays)).
Proof.
  unfold LogCanvas.handleDownloadPDF. rewrite exportedImages_app.
  destruct (export_pages_from toFixed1 pageWidth toDataURL now getElementById
              info logDays 0) as [H _].
  cbn zeta in H. cbn [Nat.add] in H. rewrite H. apply app_nil_r.
Qed.

Lemma omap_seq_all {A : Type} (g : nat -> option A) (l : list Day) (f : Day -> A)
    (k : nat) :
  (forall i d, l !! i = Some d -> g (k + i)%nat = Some (f d)) ->
  omap g (seq k (length l)) = map f l.
Proof.
  revert k; induction l as [|d l IH]; intros k H; [reflexivity|].
  cbn [length seq omap list_omap map].
  rewrite <- (Nat.add_0_r k) at 1. rewrite (H 0%nat d eq_refl).
  f_equal. apply IH. intros i d' Hi.
  replace (S k + i)%nat with (k + S i)%nat by lia. apply H. exact Hi.
Qed.

(** X11. Once the sheets are drawn, an export has exactly one image per
    day, in day order, each the picture of the canvas on which that day's
    activities were drawn, and one page break less than there are days;
    it ends by saving the file, and for no days at all it saves a document
    without any image. *)
Theorem export_after_drawing (toFixed1 : Q -> string) (pageWidth : Q)
    (toDataURL : LogCanvas.Canvas -> string) (now : string)
    (bg : LogCanvas.Image) (logDays : list Day) (info : LogCanvas.DriverInfo) :
  let ops :=
    LogCanvas.handleDownloadPDF toFixed1 pageWidth toDataURL now
      (LogCanvas.canvases logDays bg) logDays info in
  exportedImages ops
  = map (fun d => toDataURL
                    {| LogCanvas.canvas_width := 1000;
                       LogCanvas.canvas_height := 200;
                       LogCanvas.canvas_ops :=
                         LogCanvas.drawCanvas (activities d) bg |})
        logDays
  /\ pageBreaks ops = (length logDays - 1)%nat
  /\ last ops = Some (LogCanvas.Save "FMCSA_Driver_Log.pdf").
Proof.
  cbn zeta. unfold LogCanvas.handleDownloadPDF.
  rewrite exportedImages_app, pageBreaks_app, last_snoc.
  destruct (export_pages_from toFixed1 pageWidth toDataURL now
              (LogCanvas.canvases logDays bg) info logDays 0) as [H1 H2].
  cbn zeta in H1, H2. cbn [Nat.add] in H1, H2. rewrite H1, H2.
  split; [|split; [|reflexivity]].
  - rewrite app_nil_r. apply omap_seq_all. intros i d Hi.
    unfold LogCanvas.canvases. cbn [Nat.add]. rewrite Hi. reflexivity.
  - cbn [pageBreaks List.filter length]. rewrite Nat.add_0_r.
    destruct logDays as [|d0 l]; [reflexivity|].
    cbn [length seq omap list_omap Nat.ltb Nat.leb].
    rewrite (omap_seq_all _ l
               (fun d => {| LogCanvas.canvas_width := 1000;
                            LogCanvas.canvas_height := 200;
                            LogCanvas.canvas_ops :=
                              LogCanvas.drawCanvas (activities d) bg |}) 1).
    + rewrite length_map. lia.
    + intros i d Hi. cbn [Nat.add Nat.ltb Nat.leb].
      unfold LogCanvas.canvases. change ((d0 :: l) !! S i) with (l !! i).
      rewrite Hi. reflexivity.
Qed.

(** ** The compliance bar *)

(** X12. The bar of [ComplianceSummary] is never wider than 100 percent
    and is full exactly from 70 drive hours on; it is green up to 60 drive
    hours, amber above 60 and up to 70, and red only above 70, so at
    exactly 70 hours the bar is full and still amber. *)
Theorem compliance_bar (ts : ComplianceSummary.TripSummary) (ds : list Day)
    (ws : option (list string)) :
  exists v : ComplianceSummary.View,
    ComplianceSummary.render (Some ts) ds ws = ComplianceSummary.Element v
    /\ ComplianceSummary.totalDrive v
       = JS.num_or (ComplianceSummary.total_drive_hours ts) 0
    /\ ComplianceSummary.barWidthPercent v <= 100
    /\ (ComplianceSummary.barWidthPercent v == 100
        <-> 70 <= ComplianceSummary.totalDrive v)
    /\ (ComplianceSummary.barBackground v = "#ff3333"%string
        <-> 70 < ComplianceSummary.totalDrive v)
    /\ (ComplianceSummary.barBackground v = "#ffc107"%string
        <-> 60 < ComplianceSummary.totalDrive v
            /\ ComplianceSummary.totalDrive v <= 70)
    /\ (ComplianceSummary.barBackground v = "#4caf50"%string
        <-> ComplianceSummary.totalDrive v <= 60).
Proof.
  eexists. split; [reflexivity|].
  cbn [ComplianceSummary.totalDrive ComplianceSummary.barWidthPercent
       ComplianceSummary.barBackground].
  set (d := JS.num_or (ComplianceSummary.total_drive_hours ts) 0).
  assert (E : d / 70 * 100 == d * (100 # 70)) by field.
  split; [reflexivity|].
  split; [apply Q.le_min_r|].
  split.
  { destruct (Q.min_spec (d / 70 * 100) 100) as [[H1 ->]|[H1 ->]];
      rewrite E in *; split; intros; try reflexivity; lra. }
  destruct (Qlt_le_dec 70 d) as [H70|H70]; [|destruct (Qlt_le_dec 60 d) as [H60|H60]];
    conjuncts;
    (split; [first [discriminate | intros _; first [assumption | split; assumption]]
            | first [reflexivity | intros; exfalso; lra]]).
Qed.

(** ** The day overview of the sidebar *)

(** X13. For a non-empty list of days the sidebar shows one row per day,
    in order and numbered from 1, with the drive and off-duty figures and
    the fuel stops of that day; the row of the selected index is the only
    one highlighted, and none is when nothing is selected. *)
Theorem sidebar_rows (toFixed1 : Q -> string)
    (ds : list DaySummarySidebarView.PlanDay) (sel : option nat)
    (Hdays : ds <> []) :
  exists rows : list DaySummarySidebarView.Row,
    DaySummarySidebarView.render toFixed1 (Some ds) sel = Some rows
    /\ length rows = length ds
    /\ (forall (i : nat) (d : DaySummarySidebarView.PlanDay),
          ds !! i = Some d ->
          exists r : DaySummarySidebarView.Row,
            rows !! i = Some r
            /\ DaySummarySidebarView.dayNumber r = S i
            /\ (DaySummarySidebarView.active r = true <-> sel = Some i)
            /\ DaySummarySidebarView.drive r
               = toFixed1
                   (LogCanvas.calcTotalHours
                      (map DaySummarySidebarView.activity
                         (DaySummarySidebarView.plan_activities d)) "Driving")
            /\ (DaySummarySidebarView.fuelStops r
                <= length (DaySummarySidebarView.plan_activities d))%nat)
    /\ (forall (i j : nat) (r r' : DaySummarySidebarView.Row),
          rows !! i = Some r -> rows !! j = Some r' ->
          DaySummarySidebarView.active r = true ->
          DaySummarySidebarView.active r' = true -> i = j).
Proof.
  unfold DaySummarySidebarView.render.
  destruct ds as [|d0 ds']; [congruence|]. cbn [length Nat.eqb].
  set (ds := d0 :: ds'). eexists. split; [reflexivity|].
  assert (Hact : forall i r,
             imap (DaySummarySidebarView.row toFixed1 sel) ds !! i = Some r ->
             (DaySummarySidebarView.active r = true <-> sel = Some i)).
  { intros i r. rewrite list_lookup_imap.
    destruct (ds !! i) as [d|]; [|discriminate]. intros [= <-].
    cbn [DaySummarySidebarView.row DaySummarySidebarView.active].
    destruct sel as [k|]; [|split; discriminate].
    rewrite Nat.eqb_eq. split; congruence. }
  split; [exact (length_imap _ ds)|]. split.
  - intros i d Hd. eexists. split; [rewrite list_lookup_imap, Hd; reflexivity|].
    split; [cbn; lia|].
    split; [apply Hact; rewrite list_lookup_imap, Hd; reflexivity|].
    split; [reflexivity|]. cbn. apply List.filter_length_le.
  - intros i j r r' Hi Hj Hr Hr'.
    apply (Hact i r Hi) in Hr. apply (Hact j r' Hj) in Hr'. congruence.
Qed.

Lemma sidebar_rows_witness :
  exists rows : list DaySummarySidebarView.Row,
    DaySummarySidebarView.render (fun _ => "0.0"%string)
      (Some [ {| DaySummarySidebarView.plan_date := "2025-11-01";
                 DaySummarySidebarView.plan_activities := [] |} ]) (Some 0%nat)
    = Some rows
    /\ length rows = 1%nat.
Proof.
  destruct (sidebar_rows (fun _ => "0.0"%string)
              [ {| DaySummarySidebarView.plan_date := "2025-11-01";
                   DaySummarySidebarView.plan_activities := [] |} ]
              (Some 0%nat) ltac:(discriminate))
    as (rows & H1 & H2 & _).
  exists rows. split; assumption.
Defined.

(** ** More on the real-time tracker *)

Lemma tick_sum (s : MapComponent.RealTime) :
  MapComponent.elapsed s + MapComponent.remaining s == 70 ->
  MapComponent.elapsed (MapComponent.tick s)
  + MapComponent.remaining (MapComponent.tick s) == 70.
Proof.
  intros H. cbn [MapComponent.tick MapComponent.elapsed MapComponent.remaining].
  destruct (Q.min_spec (MapComponent.elapsed s + 0.1) 70) as [[H1 E1]|[H1 E1]];
    destruct (Q.max_spec (MapComponent.remaining s - 0.1) 0) as [[H2 E2]|[H2 E2]];
    lra.
Qed.



Lemma ticks_closed (s : MapComponent.RealTime) (n : nat) :
  trackerInvariant s ->
  MapComponent.elapsed (MapComponent.ticks n s)
  == Qmin (MapComponent.elapsed s + inject_Z (Z.of_nat n) * 0.1) 70
  /\ MapComponent.remaining (MapComponent.ticks n s)
     == Qmax (MapComponent.remaining s - inject_Z (Z.of_nat n) * 0.1) 0.
Proof.
  intros [He Hr]. induction n as [|n [IHe IHr]].
  - change (MapComponent.ticks 0 s) with s. change (Z.of_nat 0) with 0%Z.
    change (inject_Z 0) with 0.
    destruct (Q.min_spec (MapComponent.elapsed s + 0 * 0.1) 70) as [[H1 E3]|[H1 E3]];
      destruct (Q.max_spec (MapComponent.remaining s - 0 * 0.1) 0) as [[H2 E4]|[H2 E4]];
      split; lra.
  - change (MapComponent.ticks (S n) s)
      with (MapComponent.tick (MapComponent.ticks n s)).
    cbn [MapComponent.tick MapComponent.elapsed MapComponent.remaining].
    rewrite Nat2Z.inj_succ, <- Z.add_1_r, inject_Z_plus.
    change (inject_Z 1) with 1.
    assert (Hn : 0 <= inject_Z (Z.of_nat n))
      by (change 0 with (inject_Z 0); rewrite <- Zle_Qle; lia).
    set (a := inject_Z (Z.of_nat n)) in *.
    set (En := MapComponent.elapsed (MapComponent.ticks n s)) in *.
    set (Rn := MapComponent.remaining (MapComponent.ticks n s)) in *.
    destruct (Q.min_spec (MapComponent.elapsed s + a * 0.1) 70) as [[A1 A2]|[A1 A2]];
      destruct (Q.max_spec (MapComponent.remaining s - a * 0.1) 0) as [[B1 B2]|[B1 B2]];
      destruct (Q.min_spec (En + 0.1) 70) as [[C1 E5]|[C1 E5]];
      destruct (Q.max_spec (Rn - 0.1) 0) as [[D1 E6]|[D1 E6]];
      destruct (Q.min_spec (MapComponent.elapsed s + (a + 1) * 0.1) 70)
        as [[F1 E7]|[F1 E7]];
      destruct (Q.max_spec (MapComponent.remaining s - (a + 1) * 0.1) 0)
        as [[G1 E8]|[G1 E8]];
      split; lra.
Qed.



(** ** Drawing on the canvases of the map component *)

Lemma step_statusesCanonical (s s' : MapWithLogs.State) (e : MapWithLogs.Event) :
  statusesCanonical s -> MapWithLogs.step s e = Some s' -> statusesCanonical s'.
Proof.
  intros [Hsel Hdays]. destruct e as [b|x i|x i| |n dateOf]; cbn [MapWithLogs.step].
  - destruct b as [|[|[|[|b]]]]; cbn; intros [= <-]; split; assumption || reflexivity.
  - unfold MapWithLogs.handleMouseDown.
    destruct (MapWithLogs.logDays s !! i) as [d|] eqn:Hd; [|discriminate].
    intros [= <-]. split; [exact Hsel|]. cbn [MapWithLogs.logDays].
    apply Forall_insert; [exact Hdays|].
    cbn [MapWithLogs.pushActivity MapWithLogs.activities].
    apply Forall_app. split.
    + exact (proj1 (Forall_lookup _ _) Hdays i d Hd).
    + repeat constructor. exact Hsel.
  - unfold MapWithLogs.handleMouseMove.
    destruct (MapWithLogs.isDrawing s); cbn [negb]; [|intros [= <-]; split; assumption].
    destruct (MapWithLogs.logDays s !! i) as [d|] eqn:Hd; [|discriminate].
    destruct (MapWithLogs.activities d !! _) as [a|] eqn:Ha; [|discriminate].
    intros [= <-]. split; [exact Hsel|]. cbn [MapWithLogs.logDays].
    assert (Hd' := proj1 (Forall_lookup _ _) Hdays i d Hd). cbn beta in Hd'.
    apply Forall_insert; [exact Hdays|]. cbn [MapWithLogs.activities].
    apply Forall_insert; [exact Hd'|].
    exact (proj1 (Forall_lookup _ _) Hd' _ a Ha).
  - intros [= <-]. split; assumption.
  - intros [= <-]. split; [exact Hsel|]. cbn [MapWithLogs.logDays].
    unfold MapWithLogs.freshLogDays. apply Forall_map, Forall_forall.
    intros k _. constructor.
Qed.

Lemma run_statusesCanonical (es : list MapWithLogs.Event) (s s' : MapWithLogs.State) :
  statusesCanonical s -> MapWithLogs.run s es = Some s' -> statusesCanonical s'.
Proof.
  revert s; induction es as [|e es IH]; intros s Hs; cbn [MapWithLogs.run].
  - intros [= <-]. exact Hs.
  - destruct (MapWithLogs.step s e) as [s1|] eqn:He; [|discriminate].
    apply IH. exact (step_statusesCanonical s s1 e Hs He).
Qed.

Lemma canonical_tables :
  forall st : string,
  isCanonical st = true ->
  exists (c : string) (v : Q),
    JS.get MapWithLogs.colors st = JS.Own c
    /\ JS.get MapWithLogs.statusY st = JS.Own v
    /\ In (st, v) MapWithLogs.statusYEntries.
Proof.
  unfold isCanonical, canonical. cbn [existsb]. intros st H.
  destruct (String.eqb_spec st "OffDuty") as [E|_];
    [subst st; eexists _, _; split; [reflexivity|split; [reflexivity|cbn; tauto]]|].
  destruct (String.eqb_spec st "Sleeper") as [E|_];
    [subst st; eexists _, _; split; [reflexivity|split; [reflexivity|cbn; tauto]]|].
  destruct (String.eqb_spec st "Driving") as [E|_];
    [subst st; eexists _, _; split; [reflexivity|split; [reflexivity|cbn; tauto]]|].
  destruct (String.eqb_spec st "OnDuty") as [E|_];
    [subst st; eexists _, _; split; [reflexivity|split; [reflexivity|cbn; tauto]]|].
  discriminate H.
Qed.

(** X16. Whatever the user does (choosing a status, pressing, dragging,
    releasing, loading a route), every activity on every canvas of the
    map component carries one of the four statuses; so [drawCanvas]
    always finds its colour and its ordinate in the tables, and strokes
    it on the reference line of its status. *)
Theorem drawn_statuses_canonical (es : list MapWithLogs.Event)
    (s : MapWithLogs.State)
    (Hrun : MapWithLogs.run MapWithLogs.initial es = Some s) :
  statusesCanonical s
  /\ Forall
       (fun d =>
          Forall
            (fun a =>
               exists (c : string) (v : Q),
                 In (MapWithLogs.StrokeLine
                       {| MapWithLogs.strokeStyle := JS.Own c;
                          MapWithLogs.lineWidth := 6;
                          MapWithLogs.xStart := (MapComponent.startHour a / 24) * 1000;
                          MapWithLogs.xEnd := (MapComponent.endHour a / 24) * 1000;
                          MapWithLogs.y := JS.Own v |})
                    (MapWithLogs.drawCanvas 1000 200 (MapWithLogs.activities d))
                 /\ In (MapWithLogs.FillRect "#ddd" 0 v 1000 2)
                       (MapWithLogs.drawCanvas 1000 200 (MapWithLogs.activities d)))
            (MapWithLogs.activities d))
       (MapWithLogs.logDays s).
Proof.
  assert (Hinv : statusesCanonical s).
  { apply (run_statusesCanonical es MapWithLogs.initial s); [|exact Hrun].
    split; [reflexivity|constructor]. }
  split; [exact Hinv|]. destruct Hinv as [_ Hdays].
  apply Forall_forall. intros d Hd.
  assert (Hacts := proj1 (Forall_forall _ _) Hdays d Hd). cbn beta in Hacts.
  apply Forall_forall. intros a Ha.
  destruct (canonical_tables _ (proj1 (Forall_forall _ _) Hacts a Ha))
    as (c & v & Hc & Hv & Hin).
  exists c, v. unfold MapWithLogs.drawCanvas. split.
  - right. apply in_or_app. right. apply in_map_iff. exists a.
    split; [rewrite Hc, Hv; reflexivity|]. apply list_elem_of_In, Ha.
  - right. apply in_or_app. left. apply in_map_iff.
    exists (MapComponent.status a, v). split; [reflexivity|exact Hin].
Qed.

Lemma drawn_statuses_canonical_witness :
  exists s : MapWithLogs.State,
    MapWithLogs.run MapWithLogs.initial exampleSession = Some s
    /\ statusesCanonical s.
Proof.
  destruct (MapWithLogs.run MapWithLogs.initial exampleSession) as [s|] eqn:Hrun;
    [|discriminate Hrun].
  exists s. split; [reflexivity|].
  apply (drawn_statuses_canonical exampleSession s Hrun).
Defined.

Lemma insert_at_end {A : Type} (l : list A) (x x' : A) :
  <[length l := x']> (l ++ [ x ]) = l ++ [ x' ].
Proof. induction l as [|z l IH]; [reflexivity|]. cbn. f_equal. exact IH. Qed.

Lemma moves_then_release (i : nat) (dt : string) (xs : list Q) :
  forall (s : MapWithLogs.State) (acts : list MapComponent.Activity)
         (a : MapComponent.Activity),
    MapWithLogs.isDrawing s = true ->
    MapWithLogs.logDays s !! i
    = Some {| MapWithLogs.date := dt; MapWithLogs.activities := acts ++ [ a ] |} ->
    MapWithLogs.run s (map (fun x => MapWithLogs.MouseMove x i) xs
                       ++ [ MapWithLogs.MouseUp ])
    = Some {| MapWithLogs.logDays :=
                <[i := {| MapWithLogs.date := dt;
                          MapWithLogs.activities :=
                            acts ++ [ fold_left
                                        (fun b x => MapWithLogs.setEndHour
                                                      (MapWithLogs.hourAt x) b)
                                        xs a ] |}]>
                  (MapWithLogs.logDays s);
              MapWithLogs.selectedStatus := MapWithLogs.selectedStatus s;
              MapWithLogs.isDrawing := false |}.
Proof.
  induction xs as [|x xs IH]; intros s acts a Hdraw Hd.
  - cbn. unfold MapWithLogs.handleMouseUp.
    rewrite (list_insert_id _ _ _ Hd). reflexivity.
  - cbn [map app MapWithLogs.run MapWithLogs.step fold_left].
    unfold MapWithLogs.handleMouseMove. rewrite Hdraw, Hd.
    cbn [negb MapWithLogs.activities MapWithLogs.date].
    rewrite length_app. cbn [length].
    replace (length acts + 1 - 1)%nat with (length acts) by lia.
    rewrite (list_lookup_middle acts [] a (length acts) eq_refl).
    replace (<[length acts := MapWithLogs.setEndHour (MapWithLogs.hourAt x) a]>
               (acts ++ [ a ]))
      with (acts ++ [ MapWithLogs.setEndHour (MapWithLogs.hourAt x) a ])
      by (symmetry; apply insert_at_end).
    erewrite (IH _ acts (MapWithLogs.setEndHour (MapWithLogs.hourAt x) a)).
    + cbn [MapWithLogs.logDays MapWithLogs.selectedStatus].
      rewrite list_insert_insert_eq. reflexivity.
    + reflexivity.
    + cbn [MapWithLogs.logDays]. apply list_lookup_insert_eq.
      apply lookup_lt_is_Some. eauto.
Qed.

Lemma last_cons_default {A : Type} (xs : list A) :
  forall x d : A, List.last (x :: xs) d = List.last xs x.
Proof.
  induction xs as [|z xs IH]; intros x d; [reflexivity|].
  change (List.last (x :: z :: xs) d) with (List.last (z :: xs) d).
  rewrite (IH z d), (IH z x). reflexivity.
Qed.

Lemma drag_end (xs : list Q) (st : string) (h0 : Q) (x0 : Q) :
  fold_left (fun b x => MapWithLogs.setEndHour (MapWithLogs.hourAt x) b) xs
    {| MapComponent.status := st; MapComponent.startHour := h0;
       MapComponent.endHour := MapWithLogs.hourAt x0 |}
  = {| MapComponent.status := st; MapComponent.startHour := h0;
       MapComponent.endHour := MapWithLogs.hourAt (List.last xs x0) |}.
Proof.
  revert x0; induction xs as [|x xs IH]; intros x0; [reflexivity|].
  cbn [fold_left]. unfold MapWithLogs.setEndHour at 2.
  cbn [MapComponent.status MapComponent.startHour].
  rewrite (IH x), last_cons_default. reflexivity.
Qed.

Lemma gesture_result (s : MapWithLogs.State) (x0 : Q) (xs : list Q) (i : nat)
    (d : MapWithLogs.LogDay) :
  MapWithLogs.logDays s !! i = Some d ->
  MapWithLogs.run s (gesture x0 xs i)
  = Some {| MapWithLogs.logDays :=
              <[i := MapWithLogs.pushActivity
                       {| MapComponent.status := MapWithLogs.selectedStatus s;
                          MapComponent.startHour := MapWithLogs.hourAt x0;
                          MapComponent.endHour :=
                            MapWithLogs.hourAt (List.last xs x0) |} d]>
                (MapWithLogs.logDays s);
            MapWithLogs.selectedStatus := MapWithLogs.selectedStatus s;
            MapWithLogs.isDrawing := false |}.
Proof.
  intros Hd. unfold gesture. cbn [MapWithLogs.run MapWithLogs.step].
  unfold MapWithLogs.handleMouseDown. rewrite Hd. cbn zeta.
  destruct d as [dt acts].
  erewrite (moves_then_release i dt xs _ acts).
  - cbn [MapWithLogs.logDays MapWithLogs.selectedStatus].
    rewrite list_insert_insert_eq, drag_end. reflexivity.
  - reflexivity.
  - cbn [MapWithLogs.logDays]. apply list_lookup_insert_eq.
    apply lookup_lt_is_Some. eauto.
Qed.

(** X17. A press, any number of moves and a release on the canvas of an
    existing day never throw and add exactly one activity, at the end of
    that day: it has the selected status, starts at the hour of the press
    and ends at the hour of the last move (of the press, if the pointer
    did not move).  The other days and the selected status are unchanged,
    and drawing is off again. *)
Theorem gesture_adds_one_activity (s : MapWithLogs.State) (x0 : Q)
    (xs : list Q) (i : nat) (d : MapWithLogs.LogDay)
    (Hday : MapWithLogs.logDays s !! i = Some d) :
  exists s' : MapWithLogs.State,
    MapWithLogs.run s (gesture x0 xs i) = Some s'
    /\ MapWithLogs.isDrawing s' = false
    /\ MapWithLogs.selectedStatus s' = MapWithLogs.selectedStatus s
    /\ length (MapWithLogs.logDays s') = length (MapWithLogs.logDays s)
    /\ (forall j : nat, j <> i ->
          MapWithLogs.logDays s' !! j = MapWithLogs.logDays s !! j)
    /\ MapWithLogs.logDays s' !! i
       = Some {| MapWithLogs.date := MapWithLogs.date d;
                 MapWithLogs.activities :=
                   MapWithLogs.activities d
                   ++ [ {| MapComponent.status := MapWithLogs.selectedStatus s;
                           MapComponent.startHour := MapWithLogs.hourAt x0;
                           MapComponent.endHour :=
                             MapWithLogs.hourAt (List.last xs x0) |} ] |}.
Proof.
  eexists. split; [apply (gesture_result s x0 xs i d Hday)|].
  cbn [MapWithLogs.isDrawing MapWithLogs.selectedStatus MapWithLogs.logDays].
  split; [reflexivity|]. split; [reflexivity|].
  split; [apply length_insert|].
  split; [intros j Hj; apply list_lookup_insert_ne; congruence|].
  apply list_lookup_insert_eq, lookup_lt_is_Some. eauto.
Qed.

Lemma gesture_adds_one_activity_witness :
  exists s' : MapWithLogs.State,
    MapWithLogs.run
      {| MapWithLogs.logDays := MapWithLogs.freshLogDays 1 (fun _ => "11/1/2025"%string);
         MapWithLogs.selectedStatus := "Driving";
         MapWithLogs.isDrawing := false |}
      (gesture 250 [ 300; 500 ] 0) = Some s'
    /\ MapWithLogs.isDrawing s' = false.
Proof.
  destruct (gesture_adds_one_activity
              {| MapWithLogs.logDays :=
                   MapWithLogs.freshLogDays 1 (fun _ => "11/1/2025"%string);
                 MapWithLogs.selectedStatus := "Driving";
                 MapWithLogs.isDrawing := false |}
              250 [ 300; 500 ] 0 _ eq_refl) as (s' & H1 & H2 & _).
  exists s'. split; assumption.
Defined.

Lemma calcHoursValue_snoc (acts : list MapComponent.Activity)
    (a : MapComponent.Activity) (st : string) :
  MapComponent.calcHoursValue (acts ++ [ a ]) st
  == MapComponent.calcHoursValue acts st
     + (if String.eqb (MapComponent.status a) st
        then Qmax (MapComponent.endHour a - MapComponent.startHour a) 0
        else 0).
Proof.
  unfold MapComponent.calcHoursValue.
  rewrite List.filter_app, fold_left_app. cbn [List.filter].
  destruct (String.eqb (MapComponent.status a) st); cbn [fold_left]; ring.
Qed.

(** X18. A gesture changes the hours of its day only for the selected
    status, and by the length of the drag when it runs to the right:
    after a drag from [x0] to [x1] the total of the selected status has
    grown by [max(hour(x1) - hour(x0), 0)], so a drag to the left, or a
    press without a move, adds a line to the canvas and nothing to the
    hours. *)
Theorem gesture_hours (s s' : MapWithLogs.State) (x0 : Q) (xs : list Q)
    (i : nat) (d : MapWithLogs.LogDay)
    (Hday : MapWithLogs.logDays s !! i = Some d)
    (Hrun : MapWithLogs.run s (gesture x0 xs i) = Some s') :
  exists d' : MapWithLogs.LogDay,
    MapWithLogs.logDays s' !! i = Some d'
    /\ length (MapWithLogs.activities d') = S (length (MapWithLogs.activities d))
    /\ (forall st : string,
          MapComponent.calcHoursValue (MapWithLogs.activities d') st
          == MapComponent.calcHoursValue (MapWithLogs.activities d) st
             + (if String.eqb (MapWithLogs.selectedStatus s) st
                then Qmax (MapWithLogs.hourAt (List.last xs x0)
                           - MapWithLogs.hourAt x0) 0
                else 0))
    /\ (List.last xs x0 <= x0 ->
        forall st : string,
          MapComponent.calcHoursValue (MapWithLogs.activities d') st
          == MapComponent.calcHoursValue (MapWithLogs.activities d) st).
Proof.
  rewrite (gesture_result s x0 xs i d Hday) in Hrun. injection Hrun as <-.
  eexists. cbn [MapWithLogs.logDays].
  split; [apply list_lookup_insert_eq, lookup_lt_is_Some; eauto|].
  cbn [MapWithLogs.pushActivity MapWithLogs.activities].
  split; [rewrite length_app; cbn; lia|].
  split.
  - intros st. rewrite calcHoursValue_snoc. reflexivity.
  - intros Hleft st. rewrite calcHoursValue_snoc.
    cbn [MapComponent.status MapComponent.startHour MapComponent.endHour].
    destruct (String.eqb (MapWithLogs.selectedStatus s) st); [|ring].
    assert (Hh : MapWithLogs.hourAt (List.last xs x0) - MapWithLogs.hourAt x0 <= 0).
    { unfold MapWithLogs.hourAt.
      assert (E1 : List.last xs x0 / 1000 * 24 == List.last xs x0 * (24 # 1000))
        by field.
      assert (E2 : x0 / 1000 * 24 == x0 * (24 # 1000)) by field.
      rewrite E1, E2. lra. }
    destruct (Q.max_spec (MapWithLogs.hourAt (List.last xs x0)
                          - MapWithLogs.hourAt x0) 0) as [[M1 M2]|[M1 M2]];
      rewrite M2; lra.
Qed.

Lemma gesture_hours_witness :
  exists s' : MapWithLogs.State,
    MapWithLogs.run
      {| MapWithLogs.logDays := MapWithLogs.freshLogDays 1 (fun _ => "11/1/2025"%string);
         MapWithLogs.selectedStatus := "Driving";
         MapWithLogs.isDrawing := false |}
      (gesture 500 [ 300; 250 ] 0) = Some s'
    /\ exists d' : MapWithLogs.LogDay,
         MapWithLogs.logDays s' !! 0%nat = Some d'
         /\ length (MapWithLogs.activities d') = 1%nat.
Proof.
  eexists. split; [reflexivity|].
  destruct (gesture_hours
              {| MapWithLogs.logDays :=
                   MapWithLogs.freshLogDays 1 (fun _ => "11/1/2025"%string);
                 MapWithLogs.selectedStatus := "Driving";
                 MapWithLogs.isDrawing := false |}
              _ 500 [ 300; 250 ] 0 _ eq_refl eq_refl) as (d' & H1 & H2 & _).
  exists d'. split; assumption.
Defined.



(** X20. A route that is loaded while a line is being drawn makes the
    next move of the pointer throw: the days are replaced by days without
    activities, drawing is still on, and the move finds no activity to
    extend. *)
Theorem route_during_drag_throws (s : MapWithLogs.State) (tripDays : nat)
    (dateOf : nat -> string) (x : Q) (dayIdx : nat)
    (Hdrawing : MapWithLogs.isDrawing s = true) :
  MapWithLogs.run s [ MapWithLogs.RouteLoaded tripDays dateOf;
                      MapWithLogs.MouseMove x dayIdx ]
  = None.
Proof.
  cbn [MapWithLogs.run MapWithLogs.step]. unfold MapWithLogs.handleMouseMove.
  cbn [MapWithLogs.isDrawing MapWithLogs.logDays]. rewrite Hdrawing. cbn [negb].
  unfold MapWithLogs.freshLogDays.
  destruct (map _ (seq 0 _) !! dayIdx) as [d|] eqn:Hd; [|reflexivity].
  apply list_elem_of_lookup_2, list_elem_of_In, in_map_iff in Hd.
  destruct Hd as (k & <- & _). reflexivity.
Qed.

Lemma route_during_drag_throws_witness :
  MapWithLogs.run
    {| MapWithLogs.logDays := MapWithLogs.freshLogDays 1 (fun _ => "11/1/2025"%string);
       MapWithLogs.selectedStatus := "Driving";
       MapWithLogs.isDrawing := true |}
    [ MapWithLogs.RouteLoaded 3 (fun _ => "11/2/2025"%string);
      MapWithLogs.MouseMove 400 1 ]
  = None.
Proof.
  apply (route_during_drag_throws _ 3 _ 400 1). reflexivity.
Defined.

Lemma map_tables_unknown (st : string) :
  isCanonical st = false ->
  MapWithLogs.statusY !! st = None /\ MapWithLogs.colors !! st = None.
Proof.
  intros (H1 & H2 & H3 & H4)%isCanonical_false.
  unfold MapWithLogs.statusY, MapWithLogs.colors,
    MapWithLogs.statusYEntries, MapWithLogs.colorEntries.
  split; rewrite !list_to_map_cons, !lookup_insert_ne, list_to_map_nil by congruence;
    apply lookup_empty.
Qed.

(** X21. The two canvases use the same table of lanes and the same table
    of colours; they part on a status that is none of the four (and no
    inherited name): the log sheet strokes it on the OffDuty lane in
    [#000], the canvas of the map component has neither an ordinate nor a
    colour for it. *)
Theorem canvases_tables (st : string) (t0 t1 : Z) (h0 h1 scaleY : Q)
    (Hunknown : isCanonical st = false)
    (Hplain : JS.inherited st = false) :
  MapWithLogs.statusY = LogCanvas.statusY
  /\ MapWithLogs.colors = LogCanvas.colors
  /\ LogCanvas.strokes
       (LogCanvas.drawCanvas [ {| status := st; start := t0; end_ := t1 |} ] sampleImage)
     = [ {| LogCanvas.strokeStyle := JS.Own "#000"%string;
            LogCanvas.lineWidth := 5;
            LogCanvas.xStart := (LogCanvas.hourOfDayUTC t0 / 24) * 1000;
            LogCanvas.xEnd := (LogCanvas.hourOfDayUTC t1 / 24) * 1000;
            LogCanvas.y := Some (162 * canvasScaleY sampleImage) |} ]
  /\ In (MapWithLogs.StrokeLine
           {| MapWithLogs.strokeStyle := JS.Undefined;
              MapWithLogs.lineWidth := 6;
              MapWithLogs.xStart := (h0 / 24) * 1000;
              MapWithLogs.xEnd := (h1 / 24) * 1000;
              MapWithLogs.y := JS.Undefined |})
        (MapWithLogs.drawCanvas 1000 200
           [ {| MapComponent.status := st; MapComponent.startHour := h0;
                MapComponent.endHour := h1 |} ]).
Proof.
  destruct (tables_unknown st Hunknown) as [HY HC].
  destruct (map_tables_unknown st Hunknown) as [HY' HC'].
  split; [reflexivity|]. split; [reflexivity|]. split.
  - rewrite strokes_drawCanvas. cbn [map]. unfold LogCanvas.drawActivity.
    cbn [status start end_]. unfold JS.get. rewrite HY, HC, Hplain.
    reflexivity.
  - unfold MapWithLogs.drawCanvas. right. apply in_or_app. right. left.
    cbn [MapComponent.status MapComponent.startHour MapComponent.endHour].
    unfold JS.get. rewrite HY', HC', Hplain. reflexivity.
Qed.

Lemma canvases_tables_witness :
  MapWithLogs.statusY = LogCanvas.statusY
  /\ MapWithLogs.colors = LogCanvas.colors.
Proof.
  destruct (canvases_tables "YardMove" 0 0 0 0 1 eq_refl eq_refl) as (H1 & H2 & _).
  split; assumption.
Defined.

(** ** Signs of the totals *)

(** X22. On a day where every interval ends no earlier than it starts,
    none of the four totals is negative, and neither are the cycle hours
    of a trip made of such days. *)
Theorem totals_nonneg_on_valid_days (logDays : list Day)
    (Hvalid : Forall (fun d => Forall validRange (activities d)) logDays) :
  Forall (fun d => 0 <= driveHours (aggregate d)
                   /\ 0 <= onDutyHours (aggregate d)
                   /\ 0 <= offDutyHours (aggregate d)
                   /\ 0 <= sleeperHours (aggregate d)) logDays
  /\ 0 <= LogCanvas.currentCycleHours logDays.
Proof.
  split.
  - induction Hvalid as [|d l Hd _ IH]; constructor; [|exact IH].
    unfold aggregate. cbn [driveHours onDutyHours offDutyHours sleeperHours].
    conjuncts; apply calcTotalHours_nonneg, Hd.
  - unfold LogCanvas.currentCycleHours.
    rewrite currentCycleHours_fold, Qplus_0_l. apply sumQ_nonneg, Forall_map.
    induction Hvalid as [|d l Hd _ IH]; constructor; [|exact IH].
    unfold aggregate. cbn [driveHours onDutyHours].
    assert (H1 := calcTotalHours_nonneg (activities d) "Driving" Hd).
    assert (H2 := calcTotalHours_nonneg (activities d) "OnDuty" Hd).
    lra.
Qed.

Lemma totals_nonneg_on_valid_days_witness :
  Forall (fun d => Forall validRange (activities d)) (days exampleTrip)
  /\ 0 <= LogCanvas.currentCycleHours (days exampleTrip).
Proof.
  assert (H : Forall (fun d => Forall validRange (activities d)) (days exampleTrip))
    by (repeat constructor; discriminate).
  split; [exact H|]. apply (totals_nonneg_on_valid_days (days exampleTrip) H).
Defined.

(** X23. In the map component an added activity never lowers a total:
    whatever is drawn, and in whichever direction, the hours of every
    status after the addition are at least the hours before it, and they
    are never negative. *)
Theorem map_totals_never_decrease (acts : list MapComponent.Activity)
    (a : MapComponent.Activity) (st : string) :
  0 <= MapComponent.calcHoursValue acts st
  /\ MapComponent.calcHoursValue acts st
     <= MapComponent.calcHoursValue (acts ++ [ a ]) st.
Proof.
  split; [apply MapComponent_calcHoursValue_nonneg|].
  rewrite calcHoursValue_snoc.
  destruct (String.eqb (MapComponent.status a) st); [|lra].
  assert (H := Q.le_max_r (MapComponent.endHour a - MapComponent.startHour a) 0).
  lra.
Qed.
